(** * GitHub to Azure DevOps migrator: a shallow embedding

    The repository holds two programs of package [main]:
    - [new.go]: lists the authenticated user's GitHub repositories, creates
      each one in Azure DevOps, and mirrors it through a temporary bare clone
      in one sequential loop;
    - [main.go]: takes a comma-separated list of repository names and starts
      one goroutine ([migrateRepo]) per entry.

    Everything outside the two programs (HTTP servers, the [git] binary, the
    file system, the wall clock) is a parameter of the model: each call
    receives its outcome from a record of functions, so every theorem holds
    for all behaviours of the environment. *)

From Stdlib Require Import String Ascii List NArith Bool Arith Lia.
From stdpp Require Import base gmap strings pretty.
Import ListNotations.

Local Open Scope string_scope.
Local Open Scope list_scope.

(** ** The functions of Go's [strings] package that the programs call *)

Module GoStrings.

Definition byte (c : ascii) : N := N_of_ascii c.

(** [strings.HasPrefix s p] *)
Definition HasPrefix (s p : string) : bool := String.prefix p s.

(** Drop the first [n] bytes: the slice [s[n:]]. *)
Fixpoint drop_bytes (n : nat) (s : string) : string :=
  match n, s with
  | O, _ => s
  | S _, EmptyString => EmptyString
  | S k, String _ r => drop_bytes k r
  end.

(** [strings.Contains s sub] *)
Fixpoint Contains (s sub : string) : bool :=
  HasPrefix s sub ||
  match s with
  | EmptyString => false
  | String _ r => Contains r sub
  end.

(** [strings.Replace s old new 1]: the first occurrence of [old] is
    replaced; an empty [old] matches at the start of the string. *)
Fixpoint ReplaceFirst (s old new : string) : string :=
  if HasPrefix s old then new +:+ drop_bytes (String.length old) s
  else match s with
       | EmptyString => EmptyString
       | String c r => String c (ReplaceFirst r old new)
       end.

(** The scanning loop of [strings.ReplaceAll] for a non-empty [old]:
    occurrences are found left to right and do not overlap; [skip] counts
    the bytes of the current occurrence that are still to be passed. *)
Fixpoint replace_scan (old new : string) (skip : nat) (s : string) : string :=
  match s with
  | EmptyString => EmptyString
  | String c r =>
      match skip with
      | S k => replace_scan old new k r
      | O => if HasPrefix s old
             then new +:+ replace_scan old new (String.length old - 1) r
             else String c (replace_scan old new 0 r)
      end
  end.

(** [strings.ReplaceAll s old new]. The programs only call it with
    [old = "/"]; Go's rune-wise interleaving for an empty [old] is not
    reproduced and the string is returned as it is. *)
Definition ReplaceAll (s old new : string) : string :=
  match old with
  | EmptyString => s
  | _ => replace_scan old new 0 s
  end.

(** The loop of [strings.Split] for a non-empty separator; [cur] is the
    current field, reversed. *)
Fixpoint split_scan (sep : string) (skip : nat) (cur : string) (s : string)
  : list string :=
  match s with
  | EmptyString => [String.rev cur]
  | String c r =>
      match skip with
      | S k => split_scan sep k cur r
      | O => if HasPrefix s sep
             then String.rev cur :: split_scan sep (String.length sep - 1) EmptyString r
             else split_scan sep 0 (String c cur) r
      end
  end.

(** [strings.Split s sep] for a non-empty [sep] (the program splits on
    [","]); [Split "" sep] is the one-element list [[""]]. *)
Definition Split (s sep : string) : list string :=
  split_scan sep 0 EmptyString s.

(** White space as [unicode.IsSpace] sees it, on the UTF-8 bytes. *)
Definition asciiSpace (c : ascii) : bool :=
  match byte c with
  | 9 | 10 | 11 | 12 | 13 | 32 => true
  | _ => false
  end%N.

(** U+0085 and U+00A0. *)
Definition space2 (a b : ascii) : bool :=
  ((byte a =? 194) && ((byte b =? 133) || (byte b =? 160)))%N.

(** U+1680, U+2000..U+200A, U+2028, U+2029, U+202F, U+205F, U+3000. *)
Definition space3 (a b c : ascii) : bool :=
  (((byte a =? 225) && (byte b =? 154) && (byte c =? 128))
   || ((byte a =? 226) && (byte b =? 128)
       && (((128 <=? byte c) && (byte c <=? 138))
           || (byte c =? 168) || (byte c =? 169) || (byte c =? 175)))
   || ((byte a =? 226) && (byte b =? 129) && (byte c =? 159))
   || ((byte a =? 227) && (byte b =? 128) && (byte c =? 128)))%N.

(** Number of bytes of the white-space rune the string starts with, [0]
    when it starts with none. *)
Definition leadingSpace (s : string) : nat :=
  match s with
  | String a r =>
      if asciiSpace a then 1
      else match r with
           | String b r' =>
               if space2 a b then 2
               else match r' with
                    | String c _ => if space3 a b c then 3 else 0
                    | EmptyString => 0
                    end
           | EmptyString => 0
           end
  | EmptyString => 0
  end.

(** The same for the rune a string ends with, read on the reversed
    string. *)
Definition trailingSpace (rs : string) : nat :=
  match rs with
  | String a r =>
      if asciiSpace a then 1
      else match r with
           | String b r' =>
               if space2 b a then 2
               else match r' with
                    | String c _ => if space3 c b a then 3 else 0
                    | EmptyString => 0
                    end
           | EmptyString => 0
           end
  | EmptyString => 0
  end.

Fixpoint trim_with (width : string -> nat) (fuel : nat) (s : string) : string :=
  match fuel with
  | O => s
  | S k => match width s with
           | O => s
           | n => trim_with width k (drop_bytes n s)
           end
  end.

(** [strings.TrimSpace s] *)
Definition TrimSpace (s : string) : string :=
  let l := trim_with leadingSpace (String.length s) s in
  String.rev (trim_with trailingSpace (String.length l) (String.rev l)).

(** [strconv.Itoa] on a natural number, as the [%d] verb prints it. *)
Definition Itoa (n : nat) : string := pretty n.

End GoStrings.

Import GoStrings.

(** ** The environment of the programs *)

(** An [error] value is represented by its message ([err.Error()]). *)
Definition error := string.

(** An [http.Request] as the programs build it. [BasicAuth] records the
    arguments of [req.SetBasicAuth]; [Payload] is the JSON object that was
    marshalled into the body (field name, string value). *)
Record Request := {
  Method : string;
  URL : string;
  Header : list (string * string);
  BasicAuth : option (string * string);
  Payload : option (list (string * string))
}.

(** The fields of [http.Response] the programs read. *)
Record Response := {
  StatusCode : nat;
  Status : string;
  Body : string
}.

(** Calls that leave the process. *)
Inductive Event :=
| EvHttp (req : Request)
| EvTempDir (dir pattern : string)
| EvGit (argv : list string)
| EvRemoveAll (path : string)
| EvMkdirAll (path : string)
| EvRename (oldpath newpath : string).

(** What the outside answers. Every field is a function of the arguments of
    the call; a run of a program takes one such record per task, so the
    answers may differ from one task to the next. *)
Record Env := {
  (** the error of [http.NewRequest method url], if any *)
  newRequestErr : string -> string -> option error;
  (** [client.Do req] *)
  clientDo : Request -> Response + error;
  (** [json.Unmarshal] into [[]struct{FullName}]: the [full_name] fields *)
  decodeFullNames : string -> list string;
  (** [json.Unmarshal] into [struct{RemoteUrl}]: the [remoteUrl] field,
      empty when the body does not provide one *)
  decodeRemoteUrl : string -> string;
  (** [ioutil.TempDir dir pattern] *)
  tempDir : string -> string -> string + error;
  (** running [git argv]: combined output and error *)
  runGit : list string -> string * option error;
  (** [os.RemoveAll path] *)
  removeAll : string -> option error;
  (** [os.MkdirAll path 0755] *)
  mkdirAll : string -> option error;
  (** [os.Rename oldpath newpath] *)
  rename : string -> string -> option error
}.

(** The [git] command lines among the calls of a trace, in order. *)
Definition gitCommands (t : list Event) : list (list string) :=
  omap (fun e => match e with EvGit argv => Some argv | _ => None end) t.

(** [git clone ...] *)
Definition isClone (argv : list string) : bool :=
  match argv with
  | _ :: verb :: _ => (verb =? "clone")%string
  | _ => false
  end.

(** The requests sent among the calls of a trace, in order. *)
Definition httpRequests (t : list Event) : list Request :=
  omap (fun e => match e with EvHttp req => Some req | _ => None end) t.

(** The directories a program has created and not yet removed. *)
Abbreviation Dirs := (gset string).

(** ** [new.go] *)

Module NewGo.

(** The messages passed to [appendLog], one constructor per format
    string. *)
Inductive Msg :=
| MStarting
| MAllRequired
| MFetching
| MNoRepos
| MFound (n : nat)
| MMigrating (repo : string)
| MErrCreate (repo : string) (err : error)
| MCreated (url : string)
| MErrTempDir (repo : string) (err : error)
| MCloning (dir : string)
| MErrClone (repo : string) (err : error) (output : string)
| MErrRemote (repo : string) (err : error) (output : string)
| MErrPushBranches (repo : string) (err : error) (output : string)
| MErrPushTags (repo : string) (err : error) (output : string)
| MSuccess (repo : string)
| MErrRemove (repo : string) (err : error)
| MRemoved (repo : string)
| MErrMove (repo dest : string) (err : error)
| MSaved (repo dest : string)
| MCompleted.

(** The text [fmt.Sprintf] produces for each message. *)
Definition render (m : Msg) : string :=
  match m with
  | MStarting => "Starting migration..."
  | MAllRequired => "Error: All fields are required."
  | MFetching => "Fetching repositories from GitHub..."
  | MNoRepos => "No repositories found or error occurred while fetching repos."
  | MFound n => "Found " +:+ Itoa n +:+ " repositories."
  | MMigrating repo => "Migrating repository: " +:+ repo
  | MErrCreate repo err => "Error creating Azure repo for " +:+ repo +:+ ": " +:+ err
  | MCreated url => "Created Azure repo: " +:+ url
  | MErrTempDir repo err =>
      "Error creating temporary directory for " +:+ repo +:+ ": " +:+ err
  | MCloning dir => "Cloning repository into " +:+ dir
  | MErrClone repo err out =>
      "Error cloning " +:+ repo +:+ ": " +:+ err +:+ ", output: " +:+ out
  | MErrRemote repo err out =>
      "Error adding Azure remote for " +:+ repo +:+ ": " +:+ err +:+ ", output: " +:+ out
  | MErrPushBranches repo err out =>
      "Error pushing branches for " +:+ repo +:+ ": " +:+ err +:+ ", output: " +:+ out
  | MErrPushTags repo err out =>
      "Error pushing tags for " +:+ repo +:+ ": " +:+ err +:+ ", output: " +:+ out
  | MSuccess repo => "Successfully migrated " +:+ repo +:+ " to Azure."
  | MErrRemove repo err => "Error removing local clone for " +:+ repo +:+ ": " +:+ err
  | MRemoved repo => "Removed local clone for " +:+ repo +:+ "."
  | MErrMove repo dest err =>
      "Error moving clone for " +:+ repo +:+ " to " +:+ dest +:+ ": " +:+ err
  | MSaved repo dest => "Local clone for " +:+ repo +:+ " saved to " +:+ dest +:+ "."
  | MCompleted => "Migration completed."
  end.

(** The state the click handler threads through its calls: the messages
    given to [appendLog] so far, the outside calls made so far, and the
    directories that exist. *)
Record St := {
  log : list Msg;
  trace : list Event;
  dirs : Dirs
}.

Definition appendLog (m : Msg) (st : St) : St :=
  {| log := log st ++ [m]; trace := trace st; dirs := dirs st |}.

Definition emit (e : Event) (st : St) : St :=
  {| log := log st; trace := trace st ++ [e]; dirs := dirs st |}.

Definition setDirs (d : Dirs) (st : St) : St :=
  {| log := log st; trace := trace st; dirs := d |}.

(** The text of the log binding: [appendLog] adds
    ["[" timestamp "] " msg "\n"] to the current text; [clock k] is the
    time of the [k]-th call. *)
Definition newline : string := String (ascii_of_nat 10) EmptyString.

Fixpoint logTextFrom (clock : nat -> string) (k : nat) (current : string)
  (ms : list Msg) : string :=
  match ms with
  | [] => current
  | m :: rest =>
      logTextFrom clock (S k)
        (current +:+ "[" +:+ clock k +:+ "] " +:+ render m +:+ newline) rest
  end.

Definition logText (clock : nat -> string) (st : St) : string :=
  logTextFrom clock 0 "" (log st).

(** [getGitHubRepos user token]: a [nil] result is the empty list. *)
Definition getGitHubRepos (env : Env) (user token : string) (st : St)
  : list string * St :=
  let url := "https://api.github.com/user/repos" in
  match newRequestErr env "GET" url with
  | Some _ => ([], st)
  | None =>
      let req := {| Method := "GET"; URL := url;
                    Header := [("Authorization", "token " +:+ token);
                               ("Accept", "application/vnd.github.v3+json")];
                    BasicAuth := None; Payload := None |} in
      let st := emit (EvHttp req) st in
      match clientDo env req with
      | inr _ => ([], st)
      | inl resp =>
          if Nat.eqb (StatusCode resp) 200
          then (decodeFullNames env (Body resp), st)
          else ([], st)
      end
  end.

(** The request [createAzureRepo] builds: a POST of [{"name": repoName}]
    with basic authentication (empty user name, the token as password). *)
Definition createRequest (repoName org project token : string) : Request :=
  {| Method := "POST";
     URL := org +:+ "/" +:+ project +:+ "/_apis/git/repositories?api-version=7.0";
     Header := [("Content-Type", "application/json")];
     BasicAuth := Some ("", token);
     Payload := Some [("name", repoName)] |}.

(** [createAzureRepo repoName org project token] *)
Definition createAzureRepo (env : Env) (repoName org project token : string)
  (st : St) : (string + error) * St :=
  let req := createRequest repoName org project token in
  match newRequestErr env "POST" (URL req) with
  | Some err => (inr err, st)
  | None =>
      let st := emit (EvHttp req) st in
      match clientDo env req with
      | inr err => (inr err, st)
      | inl resp =>
          if Nat.eqb (StatusCode resp) 201
          then (inl (ReplaceFirst (decodeRemoteUrl env (Body resp))
                       "dev.azure.com" (token +:+ "@dev.azure.com")), st)
          else (inr ("Azure API error: " +:+ Status resp), st)
      end
  end.

(** Running [git argv] and collecting [CombinedOutput]. *)
Definition git (env : Env) (argv : list string) (st : St)
  : (string * option error) * St :=
  (runGit env argv, emit (EvGit argv) st).

(** [ioutil.TempDir dir pattern]: on success the directory exists. *)
Definition TempDir (env : Env) (dir pattern : string) (st : St)
  : (string + error) * St :=
  let st := emit (EvTempDir dir pattern) st in
  match tempDir env dir pattern with
  | inl d => (inl d, setDirs ({[d]} ∪ dirs st) st)
  | inr err => (inr err, st)
  end.

(** [os.RemoveAll path]: when it returns no error the path is gone. *)
Definition RemoveAll (env : Env) (path : string) (st : St) : option error * St :=
  let st := emit (EvRemoveAll path) st in
  match removeAll env path with
  | None => (None, setDirs (dirs st ∖ {[path]}) st)
  | Some err => (Some err, st)
  end.

(** [os.MkdirAll path 0755] *)
Definition MkdirAll (env : Env) (path : string) (st : St) : option error * St :=
  let st := emit (EvMkdirAll path) st in
  match mkdirAll env path with
  | None => (None, setDirs ({[path]} ∪ dirs st) st)
  | Some err => (Some err, st)
  end.

(** [os.Rename oldpath newpath]: on success the directory has moved. *)
Definition Rename (env : Env) (oldpath newpath : string) (st : St)
  : option error * St :=
  let st := emit (EvRename oldpath newpath) st in
  match rename env oldpath newpath with
  | None => (None, setDirs ({[newpath]} ∪ (dirs st ∖ {[oldpath]})) st)
  | Some err => (Some err, st)
  end.

(** [filepath.Join(".", "clones", name)] for a [name] without a path
    separator: the joined path is cleaned, so an empty or ["."] name gives
    ["clones"] and [".."] gives ["."]. *)
Definition joinClones (name : string) : string :=
  if (name =? "")%string || (name =? ".")%string then "clones"
  else if (name =? "..")%string then "."
  else "clones/" +:+ name.

(** [filepath.Dir] of such a path. *)
Definition dirOfClones (name : string) : string :=
  if (name =? "")%string || (name =? ".")%string || (name =? "..")%string
  then "." else "clones".

(** The body of the loop over the repositories. [dontSave] is the state of
    the check box when this iteration reads it. *)
Definition processRepo (githubToken azureToken azureOrg azureProject : string)
  (dontSave : bool) (env : Env) (repo : string) (st : St) : St :=
  let st := appendLog (MMigrating repo) st in
  let '(created, st) := createAzureRepo env repo azureOrg azureProject azureToken st in
  match created with
  | inr err => appendLog (MErrCreate repo err) st
  | inl azureRepoURL =>
  let st := appendLog (MCreated azureRepoURL) st in
  let githubRepoURL := "https://" +:+ githubToken +:+ "@github.com/" +:+ repo +:+ ".git" in
  let '(made, st) := TempDir env "" (ReplaceAll repo "/" "_") st in
  match made with
  | inr err => appendLog (MErrTempDir repo err) st
  | inl tempDir =>
  let st := appendLog (MCloning tempDir) st in
  let '((output, err), st) := git env ["git"; "clone"; "--bare"; githubRepoURL; tempDir] st in
  match err with
  | Some err =>
      let st := appendLog (MErrClone repo err output) st in
      snd (RemoveAll env tempDir st)
  | None =>
  let '((output, err), st) :=
    git env ["git"; "-C"; tempDir; "remote"; "add"; "azure"; azureRepoURL] st in
  match err with
  | Some err =>
      let st := appendLog (MErrRemote repo err output) st in
      snd (RemoveAll env tempDir st)
  | None =>
  let '((output, err), st) := git env ["git"; "-C"; tempDir; "push"; "azure"; "--all"] st in
  match err with
  | Some err =>
      let st := appendLog (MErrPushBranches repo err output) st in
      snd (RemoveAll env tempDir st)
  | None =>
  let '((output, err), st) := git env ["git"; "-C"; tempDir; "push"; "azure"; "--tags"] st in
  match err with
  | Some err =>
      let st := appendLog (MErrPushTags repo err output) st in
      snd (RemoveAll env tempDir st)
  | None =>
  let st := appendLog (MSuccess repo) st in
  if dontSave then
    let '(err, st) := RemoveAll env tempDir st in
    match err with
    | Some err => appendLog (MErrRemove repo err) st
    | None => appendLog (MRemoved repo) st
    end
  else
    let destDir := joinClones (ReplaceAll repo "/" "_") in
    let '(err, st) := MkdirAll env (dirOfClones (ReplaceAll repo "/" "_")) st in
    let '(err, st) :=
      match err with
      | None => Rename env tempDir destDir st
      | Some err => (Some err, st)
      end in
    match err with
    | Some err => appendLog (MErrMove repo destDir err) st
    | None => appendLog (MSaved repo destDir) st
    end
  end end end end end end.

(** [for _, repo := range repos]: iteration [i] runs against [envs i] and
    reads the check box as [checked i]. *)
Fixpoint processAll (githubToken azureToken azureOrg azureProject : string)
  (checked : nat -> bool) (envs : nat -> Env) (i : nat) (repos : list string)
  (st : St) : St :=
  match repos with
  | [] => st
  | repo :: rest =>
      processAll githubToken azureToken azureOrg azureProject checked envs (S i) rest
        (processRepo githubToken azureToken azureOrg azureProject
           (checked i) (envs i) repo st)
  end.

(** The entry fields of the form. *)
Record Form := {
  githubTokenEntry : string;
  azureTokenEntry : string;
  azureOrgEntry : string;
  azureProjectEntry : string
}.

(** The goroutine started by the Migrate button. [listing] answers the
    call to GitHub, [envs i] the calls of iteration [i]. *)
Definition onMigrate (form : Form) (checked : nat -> bool)
  (listing : Env) (envs : nat -> Env) (st : St) : St :=
  let st := appendLog MStarting st in
  let githubToken := TrimSpace (githubTokenEntry form) in
  let azureToken := TrimSpace (azureTokenEntry form) in
  let azureOrg := TrimSpace (azureOrgEntry form) in
  let azureProject := TrimSpace (azureProjectEntry form) in
  if (githubToken =? "")%string || (azureToken =? "")%string
     || (azureOrg =? "")%string || (azureProject =? "")%string
  then appendLog MAllRequired st
  else
    let st := appendLog MFetching st in
    let '(repos, st) := getGitHubRepos listing "" githubToken st in
    match repos with
    | [] => appendLog MNoRepos st
    | _ =>
        let st := appendLog (MFound (length repos)) st in
        let st := processAll githubToken azureToken azureOrg azureProject
                    checked envs 0 repos st in
        appendLog MCompleted st
    end.

Definition start : St := {| log := []; trace := []; dirs := ∅ |}.

(** *** Reading a run *)

(** The step of the loop body at which a repository was given up. *)
Inductive Stage :=
| Provision
| Workspace
| Clone
| RemoteAdd
| PushBranches
| PushTags.

Inductive Outcome :=
| Succeeded
| Failed (stage : Stage).

(** The messages that close a repository: the one logged before each
    [continue], and the success message. *)
Definition terminal (m : Msg) : option (string * Outcome) :=
  match m with
  | MErrCreate repo _ => Some (repo, Failed Provision)
  | MErrTempDir repo _ => Some (repo, Failed Workspace)
  | MErrClone repo _ _ => Some (repo, Failed Clone)
  | MErrRemote repo _ _ => Some (repo, Failed RemoteAdd)
  | MErrPushBranches repo _ _ => Some (repo, Failed PushBranches)
  | MErrPushTags repo _ _ => Some (repo, Failed PushTags)
  | MSuccess repo => Some (repo, Succeeded)
  | _ => None
  end.

Definition report (ms : list Msg) : list (string * Outcome) := omap terminal ms.

(** The messages and calls a step added to a state. *)
Definition newLog (before after : St) : list Msg :=
  drop (length (log before)) (log after).

Definition newTrace (before after : St) : list Event :=
  drop (length (trace before)) (trace after).

(** Every pass through the loop body starts with
    ["Migrating repository: ..."]. *)
Definition isMigrating (m : Msg) : bool :=
  match m with MMigrating _ => true | _ => false end.

Definition attempts (ms : list Msg) : nat := length (List.filter isMigrating ms).

(** The four command lines of the loop body, for the push URL
    [azureRepoURL] and the directory [tempDir]. *)
Definition plan (githubToken repo azureRepoURL tempDir : string) : list (list string) :=
  [ ["git"; "clone"; "--bare";
     "https://" +:+ githubToken +:+ "@github.com/" +:+ repo +:+ ".git"; tempDir];
    ["git"; "-C"; tempDir; "remote"; "add"; "azure"; azureRepoURL];
    ["git"; "-C"; tempDir; "push"; "azure"; "--all"];
    ["git"; "-C"; tempDir; "push"; "azure"; "--tags"] ].

(** The push URL and the directory a pass works with; empty when the
    repository could not be created, or the directory not be made. *)
Definition pushURLOf (env : Env) (repo azureOrg azureProject azureToken : string)
  : string :=
  match fst (createAzureRepo env repo azureOrg azureProject azureToken start) with
  | inl url => url
  | inr _ => ""
  end.

Definition workspaceOf (env : Env) (repo : string) : string :=
  match tempDir env "" (ReplaceAll repo "/" "_") with
  | inl d => d
  | inr _ => ""
  end.

(** The guard of the handler: no field is empty once trimmed. *)
Definition filled (form : Form) : bool :=
  negb ((TrimSpace (githubTokenEntry form) =? "")%string
        || (TrimSpace (azureTokenEntry form) =? "")%string
        || (TrimSpace (azureOrgEntry form) =? "")%string
        || (TrimSpace (azureProjectEntry form) =? "")%string).

(** The repositories the handler iterates over. *)
Definition fetched (form : Form) (listing : Env) : list string :=
  fst (getGitHubRepos listing "" (TrimSpace (githubTokenEntry form)) start).

End NewGo.

(** ** The directory [git clone] makes when none is named *)

(** [git clone <url>] without a directory argument names the clone after
    the URL; for a bare or mirror clone the name ends in [.git]. The
    definitions follow [git_url_basename] of git, on a system whose
    directory separator is [/]. *)
Module Git.

Definition isDirSep (c : ascii) : bool := Ascii.eqb c "/".

Definition isColon (c : ascii) : bool := Ascii.eqb c ":".

(** git's [isspace]: tab, new line, carriage return, space. *)
Definition isSpace (c : ascii) : bool :=
  ((byte c =? 9) || (byte c =? 10) || (byte c =? 13) || (byte c =? 32))%N.

Definition isDigit (c : ascii) : bool := ((48 <=? byte c) && (byte c <=? 57))%N.


Fixpoint hasByte (p : ascii -> bool) (s : string) : bool :=
  match s with
  | EmptyString => false
  | String c r => p c || hasByte p r
  end.

Fixpoint dropWhile (p : ascii -> bool) (s : string) : string :=
  match s with
  | EmptyString => EmptyString
  | String c r => if p c then dropWhile p r else s
  end.

Fixpoint takeWhile (p : ascii -> bool) (s : string) : string :=
  match s with
  | EmptyString => EmptyString
  | String c r => if p c then String c (takeWhile p r) else EmptyString
  end.

(** Skip the scheme: what follows the first [://], the whole string when
    there is none. *)
Fixpoint afterSchemeFrom (s : string) : option string :=
  match s with
  | EmptyString => None
  | String _ r =>
      if HasPrefix s "://" then Some (drop_bytes 3 s) else afterSchemeFrom r
  end.

Definition afterScheme (s : string) : string :=
  match afterSchemeFrom s with
  | Some r => r
  | None => s
  end.

(** Skip the authentication data: up to the first directory separator,
    every [@] moves the start behind it. *)
Fixpoint skipAuthFrom (start s : string) : string :=
  match s with
  | EmptyString => start
  | String c r =>
      if isDirSep c then start
      else if Ascii.eqb c "@" then skipAuthFrom r r
      else skipAuthFrom start r
  end.

Definition skipAuth (s : string) : string := skipAuthFrom s s.

(** The steps that move the end, on the reversed string: trailing
    separators and spaces go; then a trailing [/.git], with the separators
    before it, if more than five bytes are left. *)
Definition stripTrailing (rs : string) : string :=
  let rs := dropWhile (fun c => isDirSep c || isSpace c) rs in
  match rs with
  | String "t" (String "i" (String "g" (String "." (String c rest)))) =>
      if isDirSep c && negb (rest =? "")%string then dropWhile isDirSep rest else rs
  | _ => rs
  end.

(** A trailing port number goes when what is left is a host name only (no
    separator, but a colon). *)
Definition stripPort (rs : string) : string :=
  if negb (hasByte isDirSep rs) && hasByte isColon rs
  then match dropWhile isDigit rs with
       | String c rest => if isColon c then rest else rs
       | EmptyString => rs
       end
  else rs.

(** The last component, colons counting as separators, without a trailing
    [.git]. *)
Definition lastComponent (rs : string) : string :=
  let comp := takeWhile (fun c => negb (isDirSep c || isColon c)) rs in
  if HasPrefix comp "tig." then drop_bytes 4 comp else comp.

(** Runs of control characters and spaces become one space; leading ones
    go. [prev] tells that the last byte seen was a space. *)
Fixpoint squeeze (prev : bool) (s : string) : string :=
  match s with
  | EmptyString => EmptyString
  | String c r =>
      let c := if (byte c <? 32)%N then " "%char else c in
      if isSpace c
      then (if prev then squeeze true r else String c (squeeze true r))
      else String c (squeeze false r)
  end.

Definition dropTrailingSpace (s : string) : string :=
  match String.rev s with
  | String " " rest => String.rev rest
  | _ => s
  end.

(** The directory of a bare (or mirror) clone of [url]; [None] when git
    gives up with "No directory name could be guessed". *)
Definition bareDirName (url : string) : option string :=
  let body := skipAuth (afterScheme url) in
  let comp := lastComponent (stripPort (stripTrailing (String.rev body))) in
  match comp with
  | EmptyString => None
  | _ => Some (dropTrailingSpace (squeeze true (String.rev comp +:+ ".git")))
  end.

End Git.

#[global] Arguments Git.bareDirName : simpl never.

(** ** [main.go] *)

Module MainGo.

(** The messages passed to [logMsg]. *)
Inductive Msg :=
| MMigrating (repoName : string)
| MFailClone (err : error)
| MFailRemote (err : error)
| MFailPush (err : error)
| MFailDelete (err : error)
| MSuccessDeleted (repoName : string)
| MSuccess (repoName : string).

Definition render (m : Msg) : string :=
  match m with
  | MMigrating repoName => "Migrating repository: " +:+ repoName
  | MFailClone err => "Failed to clone repository: " +:+ err
  | MFailRemote err => "Failed to add Azure DevOps remote: " +:+ err
  | MFailPush err => "Failed to push repository: " +:+ err
  | MFailDelete err => "Failed to delete repository: " +:+ err
  | MSuccessDeleted repoName =>
      "Successfully migrated and deleted local repository: " +:+ repoName
  | MSuccess repoName => "Successfully migrated repository: " +:+ repoName
  end.

(** What one call of [migrateRepo] does, in program order. *)
Inductive Act :=
| Say (m : Msg)
| Call (e : Event).

Record St := {
  acts : list Act;
  dirs : Dirs
}.

Definition logMsg (m : Msg) (st : St) : St :=
  {| acts := acts st ++ [Say m]; dirs := dirs st |}.

Definition emit (e : Event) (st : St) : St :=
  {| acts := acts st ++ [Call e]; dirs := dirs st |}.

Definition setDirs (d : Dirs) (st : St) : St :=
  {| acts := acts st; dirs := d |}.

(** [cmd.Run()] *)
Definition run (env : Env) (argv : list string) (st : St) : option error * St :=
  (snd (runGit env argv), emit (EvGit argv) st).

Definition RemoveAll (env : Env) (path : string) (st : St) : option error * St :=
  let st := emit (EvRemoveAll path) st in
  match removeAll env path with
  | None => (None, setDirs (dirs st ∖ {[path]}) st)
  | Some err => (Some err, st)
  end.

Definition dirNameOf (repoName : string) : string := repoName +:+ ".git".

(** What a clone of [url] that succeeds leaves behind: the directory git
    names after the URL. *)
Definition cloned (url : string) : Dirs :=
  match Git.bareDirName url with
  | Some dir => {[dir]}
  | None => ∅
  end.

(** [migrateRepo]. The clone is given no directory, so git chooses it; the
    program takes it to be [dirName] and runs the other commands there. A
    [git -C dirName] that succeeds tells that [dirName] exists. *)
Definition migrateRepo (env : Env)
  (gitHubOrg adoOrg adoProject repoName gitPat adoPat : string)
  (deleteAfter : bool) (st : St) : St :=
  let st := logMsg (MMigrating repoName) st in
  let url := "https://" +:+ gitPat +:+ "@github.com/" +:+ gitHubOrg +:+ "/"
               +:+ repoName +:+ ".git" in
  let '(err, st) := run env ["git"; "clone"; "--mirror"; url] st in
  match err with
  | Some err => logMsg (MFailClone err) st
  | None =>
  let st := setDirs (cloned url ∪ dirs st) st in
  let dirName := dirNameOf repoName in
  let '(err, st) :=
    run env ["git"; "-C"; dirName; "remote"; "add"; "azure-devops";
             "https://" +:+ adoPat +:+ "@dev.azure.com/" +:+ adoOrg +:+ "/"
               +:+ adoProject +:+ "/_git/" +:+ repoName] st in
  match err with
  | Some err => logMsg (MFailRemote err) st
  | None =>
  let st := setDirs ({[dirName]} ∪ dirs st) st in
  let '(err, st) := run env ["git"; "-C"; dirName; "push"; "--mirror"; "azure-devops"] st in
  match err with
  | Some err => logMsg (MFailPush err) st
  | None =>
  if deleteAfter then
    let '(err, st) := RemoveAll env dirName st in
    match err with
    | Some err => logMsg (MFailDelete err) st
    | None => logMsg (MSuccessDeleted repoName) st
    end
  else logMsg (MSuccess repoName) st
  end end end.

(** The entry fields and the check box of the form. *)
Record Form := {
  gitHubOrg : string;
  adoOrg : string;
  adoProject : string;
  repoList : string;
  gitPat : string;
  adoPat : string;
  deleteAfter : bool
}.

(** The work list of the Migrate button: one call of [migrateRepo] per
    element of [strings.Split(repoList.Text, ",")], on the trimmed
    entry. *)
Definition workList (form : Form) : list string :=
  map TrimSpace (Split (repoList form) ",").

(** The call the [i]-th goroutine makes, run on its own against the
    directories [d]. *)
Definition task (form : Form) (env : Env) (repo : string) (d : Dirs) : St :=
  migrateRepo env
    (TrimSpace (gitHubOrg form)) (TrimSpace (adoOrg form))
    (TrimSpace (adoProject form)) repo
    (TrimSpace (gitPat form)) (TrimSpace (adoPat form))
    (deleteAfter form) {| acts := []; dirs := d |}.

(** *** The goroutines and the label they share

    [logMsg] is [logBox.SetText(logBox.Text + "\n" + msg)]: the label is
    read, then written, and nothing keeps another goroutine from running
    in between. A goroutine is the list of the steps it still has to
    take, with the text it last read. *)
Inductive Step :=
| SRead
| SWrite (msg : string)
| SCall (e : Event).

Definition stepsOf (a : Act) : list Step :=
  match a with
  | Say m => [SRead; SWrite (render m)]
  | Call e => [SCall e]
  end.

Record Goroutine := {
  todo : list Step;
  seen : string
}.

Definition newline : string := String (ascii_of_nat 10) EmptyString.

(** [widget.NewLabel("Logs:")] *)
Definition logBoxStart : string := "Logs:".

(** One step of a goroutine on the text of the label. *)
Definition stepG (text : string) (g : Goroutine) : string * Goroutine :=
  match todo g with
  | [] => (text, g)
  | SRead :: rest => (text, {| todo := rest; seen := text |})
  | SWrite msg :: rest =>
      (seen g +:+ newline +:+ msg, {| todo := rest; seen := seen g |})
  | SCall _ :: rest => (text, {| todo := rest; seen := seen g |})
  end.

(** The goroutines the button starts: [go migrateRepo(...)] for each
    entry, in order. *)
Definition spawn (form : Form) (envs : nat -> Env) : list Goroutine :=
  imap (fun i repo =>
          {| todo := concat (map stepsOf (acts (task form (envs i) repo ∅)));
             seen := "" |})
       (workList form).

(** A schedule names the goroutine that takes the next step. *)
Fixpoint runSchedule (sched : list nat) (text : string) (gs : list Goroutine)
  : string * list Goroutine :=
  match sched with
  | [] => (text, gs)
  | i :: rest =>
      match gs !! i with
      | None => runSchedule rest text gs
      | Some g =>
          let '(text, g) := stepG text g in
          runSchedule rest text (<[i := g]> gs)
      end
  end.

Definition allDone (gs : list Goroutine) : bool :=
  forallb (fun g => match todo g with [] => true | _ => false end) gs.

(** The lines of the label that report how a migration ended. *)
Definition isTerminalLine (l : string) : bool :=
  HasPrefix l "Failed to " || HasPrefix l "Successfully migrated ".

Definition records (text : string) : list string :=
  filter (fun l => Is_true (isTerminalLine l)) (Split text newline).

(** *** Reading a run *)

Definition said (st : St) : list Msg :=
  omap (fun a => match a with Say m => Some m | Call _ => None end) (acts st).

Definition called (st : St) : list Event :=
  omap (fun a => match a with Call e => Some e | Say _ => None end) (acts st).

(** The messages that end a call of [migrateRepo]. *)
Definition terminal (m : Msg) : bool :=
  match m with MMigrating _ => false | _ => true end.

Definition succeeded (m : Msg) : bool :=
  match m with MSuccess _ | MSuccessDeleted _ => true | _ => false end.

Definition isMigrating (m : Msg) : bool :=
  match m with MMigrating _ => true | _ => false end.

Definition attempts (ms : list Msg) : nat := length (List.filter isMigrating ms).

(** The three command lines of [migrateRepo]. *)
Definition plan (gitHubOrg adoOrg adoProject repoName gitPat adoPat : string)
  : list (list string) :=
  [ ["git"; "clone"; "--mirror";
     "https://" +:+ gitPat +:+ "@github.com/" +:+ gitHubOrg +:+ "/"
       +:+ repoName +:+ ".git"];
    ["git"; "-C"; dirNameOf repoName; "remote"; "add"; "azure-devops";
     "https://" +:+ adoPat +:+ "@dev.azure.com/" +:+ adoOrg +:+ "/"
       +:+ adoProject +:+ "/_git/" +:+ repoName];
    ["git"; "-C"; dirNameOf repoName; "push"; "--mirror"; "azure-devops"] ].

End MainGo.

(** ** Scenarios used by the examples below *)

Module Scenario.

(** The destination host: a request to create a repository whose name it
    already holds is answered [409 Conflict], any other one [201 Created].
    The body stands for the JSON document of the answer; it is reduced to
    the name of the repository, from which [remoteUrlOf] reads the
    [remoteUrl] field. *)
Definition azureHost (existing : list string) (req : Request) : Response + error :=
  match Payload req with
  | Some [(_, name)] =>
      if bool_decide (name ∈ existing)
      then inl {| StatusCode := 409; Status := "409 Conflict"; Body := "" |}
      else inl {| StatusCode := 201; Status := "201 Created"; Body := name |}
  | _ => inl {| StatusCode := 200; Status := "200 OK"; Body := "" |}
  end.

Definition remoteUrlOf (body : string) : string :=
  match body with
  | EmptyString => ""
  | _ => "https://dev.azure.com/org/proj/_git/" +:+ body
  end.

(** An environment in which GitHub lists [names], the destination holds
    [existing], and every command and file operation succeeds. *)
Definition world (names existing : list string) : Env :=
  {| newRequestErr := fun _ _ => None;
     clientDo := fun req =>
       if (Method req =? "GET")%string
       then inl {| StatusCode := 200; Status := "200 OK"; Body := "" |}
       else azureHost existing req;
     decodeFullNames := fun _ => names;
     decodeRemoteUrl := remoteUrlOf;
     tempDir := fun _ pattern => inl ("/tmp/" +:+ pattern +:+ "042");
     runGit := fun _ => ("", None);
     removeAll := fun _ => None;
     mkdirAll := fun _ => None;
     rename := fun _ _ => None |}.

(** The same, except that the [git] commands whose verb (the word after
    the [-C dir] option, if any) is [verb] fail. *)
Definition verbOf (argv : list string) : string :=
  match argv with
  | _ :: "-C" :: _ :: verb :: _ => verb
  | _ :: verb :: _ => verb
  | _ => ""
  end.

Definition failing (verb : string) (names existing : list string) : Env :=
  let w := world names existing in
  {| newRequestErr := newRequestErr w;
     clientDo := clientDo w;
     decodeFullNames := decodeFullNames w;
     decodeRemoteUrl := decodeRemoteUrl w;
     tempDir := tempDir w;
     runGit := fun argv =>
       if (verbOf argv =? verb)%string then ("fatal", Some "exit status 128")
       else ("", None);
     removeAll := removeAll w;
     mkdirAll := mkdirAll w;
     rename := rename w |}.

Definition newForm : NewGo.Form :=
  {| NewGo.githubTokenEntry := " ghp_SECRET ";
     NewGo.azureTokenEntry := "az_SECRET";
     NewGo.azureOrgEntry := "https://dev.azure.com/org";
     NewGo.azureProjectEntry := "proj" |}.

Definition mainForm (repos : string) (delete : bool) : MainGo.Form :=
  {| MainGo.gitHubOrg := "org"; MainGo.adoOrg := "ado"; MainGo.adoProject := "proj";
     MainGo.repoList := repos; MainGo.gitPat := "ghp_SECRET";
     MainGo.adoPat := "az_SECRET"; MainGo.deleteAfter := delete |}.

End Scenario.

(** ** The work list the spec describes *)

(** Number of occurrences of the byte [c] in [s]. *)
Fixpoint countByte (c : ascii) (s : string) : nat :=
  match s with
  | EmptyString => 0
  | String x r => (if Ascii.eqb x c then 1 else 0) + countByte c r
  end.

(** Spec, 4.1: the explicit list, whitespace-trimmed, empty entries dropped,
    deduplicated, order preserved. *)
Fixpoint keepFirst (seen : list string) (l : list string) : list string :=
  match l with
  | [] => []
  | x :: rest =>
      if bool_decide (x ∈ seen) then keepFirst seen rest
      else x :: keepFirst (x :: seen) rest
  end.

Definition specWorkList (text : string) : list string :=
  keepFirst []
    (List.filter (fun s => negb (s =? "")%string) (map TrimSpace (Split text ","))).

(** ** The transfer the spec describes *)

Definition hasWord (w : string) (argv : list string) : bool :=
  existsb (fun a => (a =? w)%string) argv.

(** Spec, 4.3: a mirror clone, then the destination registered as a remote,
    then all branches pushed, then all tags. *)
Definition specTransfer (cmds : list (list string)) : bool :=
  match cmds with
  | [clone; remote; branches; tags] =>
      hasWord "clone" clone && hasWord "--mirror" clone
      && hasWord "remote" remote && hasWord "add" remote
      && hasWord "push" branches && hasWord "--all" branches
      && hasWord "push" tags && hasWord "--tags" tags
  | _ => false
  end.

(** ** Further readings of a run *)

(** The request [getGitHubRepos] builds. *)
Definition listRequest (token : string) : Request :=
  {| Method := "GET"; URL := "https://api.github.com/user/repos";
     Header := [("Authorization", "token " +:+ token);
                ("Accept", "application/vnd.github.v3+json")];
     BasicAuth := None; Payload := None |}.

(** The schedule in which the goroutines run one after the other, each to
    its end, in the order in which they were started. *)
Fixpoint serialFrom (k : nat) (gs : list MainGo.Goroutine) : list nat :=
  match gs with
  | [] => []
  | g :: rest => replicate (length (MainGo.todo g)) k ++ serialFrom (S k) rest
  end.

Definition serial (gs : list MainGo.Goroutine) : list nat := serialFrom 0 gs.

(** What a list of steps adds to the label when nothing else writes in
    between: a new line and the message, for every write. *)
Fixpoint written (steps : list MainGo.Step) : string :=
  match steps with
  | [] => ""
  | MainGo.SWrite msg :: rest => MainGo.newline +:+ msg +:+ written rest
  | _ :: rest => written rest
  end.

Fixpoint writtenAll (gs : list MainGo.Goroutine) : string :=
  match gs with
  | [] => ""
  | g :: rest => written (MainGo.todo g) +:+ writtenAll rest
  end.

(** The forms in which the fields that the programs trim are trimmed
    already. *)
Definition trimNewForm (form : NewGo.Form) : NewGo.Form :=
  {| NewGo.githubTokenEntry := TrimSpace (NewGo.githubTokenEntry form);
     NewGo.azureTokenEntry := TrimSpace (NewGo.azureTokenEntry form);
     NewGo.azureOrgEntry := TrimSpace (NewGo.azureOrgEntry form);
     NewGo.azureProjectEntry := TrimSpace (NewGo.azureProjectEntry form) |}.

Definition trimMainForm (form : MainGo.Form) : MainGo.Form :=
  {| MainGo.gitHubOrg := TrimSpace (MainGo.gitHubOrg form);
     MainGo.adoOrg := TrimSpace (MainGo.adoOrg form);
     MainGo.adoProject := TrimSpace (MainGo.adoProject form);
     MainGo.repoList := MainGo.repoList form;
     MainGo.gitPat := TrimSpace (MainGo.gitPat form);
     MainGo.adoPat := TrimSpace (MainGo.adoPat form);
     MainGo.deleteAfter := MainGo.deleteAfter form |}.

(** The URL [migrateRepo] clones for the entry [repo]. *)
Definition cloneURL (form : MainGo.Form) (repo : string) : string :=
  "https://" +:+ TrimSpace (MainGo.gitPat form) +:+ "@github.com/"
    +:+ TrimSpace (MainGo.gitHubOrg form) +:+ "/" +:+ repo +:+ ".git".





(** * Properties *)

Example Split_ex : Split "a, b,,a" "," = ["a"; " b"; ""; "a"].
Proof. reflexivity. Qed.

Example Split_empty : Split "" "," = [""].
Proof. reflexivity. Qed.

Example TrimSpace_ex : TrimSpace "  org/a	 " = "org/a".
Proof. reflexivity. Qed.

Example ReplaceAll_ex : ReplaceAll "org/a/b" "/" "_" = "org_a_b".
Proof. reflexivity. Qed.

Example ReplaceFirst_ex :
  ReplaceFirst "https://dev.azure.com/o/p/_git/dev.azure.com" "dev.azure.com" "T@dev.azure.com"
  = "https://T@dev.azure.com/o/p/_git/dev.azure.com".
Proof. reflexivity. Qed.

Example Itoa_ex : Itoa 12 = "12".
Proof. reflexivity. Qed.

(** ** Strings *)

#[local] Arguments String.append !s1 s2 : simpl nomatch.

Lemma append_assoc (a b c : string) : (a +:+ b) +:+ c = a +:+ (b +:+ c).
Proof. induction a as [|x a IH]; simpl; [reflexivity | now rewrite IH]. Qed.

Lemma append_empty_r (a : string) : a +:+ "" = a.
Proof. induction a as [|x a IH]; simpl; [reflexivity | now rewrite IH]. Qed.

Lemma length_append (a b : string) :
  String.length (a +:+ b) = String.length a + String.length b.
Proof. induction a as [|x a IH]; simpl; [reflexivity | now rewrite IH]. Qed.

Lemma HasPrefix_append (p r : string) : HasPrefix (p +:+ r) p = true.
Proof.
  unfold HasPrefix. induction p as [|x p IH]; simpl; [now destruct r|].
  destruct (ascii_dec x x) as [_|Hne]; [exact IH | now elim Hne].
Qed.

Lemma HasPrefix_split (s p : string) :
  HasPrefix s p = true -> s = p +:+ drop_bytes (String.length p) s.
Proof.
  unfold HasPrefix. revert s. induction p as [|x p IH]; intros s H.
  - reflexivity.
  - destruct s as [|y s]; simpl in H; [discriminate|].
    destruct (ascii_dec x y) as [->|]; [|discriminate].
    simpl. f_equal. now apply IH.
Qed.

Lemma Contains_here (s t : string) : HasPrefix s t = true -> Contains s t = true.
Proof. intros H. destruct s; cbn [Contains]; rewrite H; reflexivity. Qed.

Lemma Contains_inside (a t b : string) : Contains (a +:+ t +:+ b) t = true.
Proof.
  induction a as [|x a IH].
  - change ("" +:+ t +:+ b) with (t +:+ b). apply Contains_here, HasPrefix_append.
  - change (String x a +:+ t +:+ b) with (String x (a +:+ t +:+ b)).
    cbn [Contains]. rewrite IH. apply orb_true_r.
Qed.

Lemma ReplaceFirst_split (s old new : string) :
  Contains s old = true ->
  exists a b, ReplaceFirst s old new = a +:+ new +:+ b.
Proof.
  induction s as [|x s IH]; cbn [Contains ReplaceFirst]; intros H.
  - rewrite orb_false_r in H. rewrite H. exists "", (drop_bytes (String.length old) "").
    reflexivity.
  - destruct (HasPrefix (String x s) old) eqn:Hp.
    + exists "", (drop_bytes (String.length old) (String x s)). reflexivity.
    + destruct (IH H) as (a & b & E).
      exists (String x a), b. rewrite E. reflexivity.
Qed.


Lemma Contains_split (s t : string) :
  Contains s t = true -> exists a b, s = a +:+ t +:+ b.
Proof.
  induction s as [|x s IH]; cbn [Contains]; intros H.
  - rewrite orb_false_r in H. exists "", (drop_bytes (String.length t) "").
    now apply HasPrefix_split.
  - destruct (HasPrefix (String x s) t) eqn:Hp.
    + exists "", (drop_bytes (String.length t) (String x s)). now apply HasPrefix_split.
    + destruct (IH H) as (a & b & E). exists (String x a), b. now rewrite E at 1.
Qed.

Lemma Contains_within (a u b t : string) :
  Contains u t = true -> Contains (a +:+ u +:+ b) t = true.
Proof.
  intros H. destruct (Contains_split _ _ H) as (c & d & ->).
  rewrite !append_assoc, <- (append_assoc a c). apply Contains_inside.
Qed.

(** A token put in front of the replacement shows in the result. *)
Lemma token_in_replacement (s old token rest : string) :
  Contains s old = true ->
  Contains (ReplaceFirst s old (token +:+ rest)) token = true.
Proof.
  intros H. destruct (ReplaceFirst_split s old (token +:+ rest) H) as (a & b & ->).
  rewrite append_assoc. apply Contains_inside.
Qed.

(** ** The text of the log binding of [new.go] *)

Lemma logTextFrom_extends clock k current ms :
  exists r, NewGo.logTextFrom clock k current ms = current +:+ r.
Proof.
  revert k current. induction ms as [|m ms IH]; intros k current;
    cbn [NewGo.logTextFrom].
  - exists "". now rewrite append_empty_r.
  - destruct (IH (S k)
      (current +:+ "[" +:+ clock k +:+ "] " +:+ NewGo.render m +:+ NewGo.newline))
      as (r & ->).
    eexists. rewrite append_assoc. reflexivity.
Qed.

Lemma logTextFrom_shows clock k current ms m :
  m ∈ ms ->
  exists a b, NewGo.logTextFrom clock k current ms = a +:+ NewGo.render m +:+ b.
Proof.
  intros Hin. revert k current.
  induction Hin as [m ms|m m' ms _ IH]; intros k current;
    cbn [NewGo.logTextFrom].
  - destruct (logTextFrom_extends clock (S k)
      (current +:+ "[" +:+ clock k +:+ "] " +:+ NewGo.render m +:+ NewGo.newline) ms)
      as (r & ->).
    exists (current +:+ "[" +:+ clock k +:+ "] "), (NewGo.newline +:+ r).
    now rewrite !append_assoc.
  - apply IH.
Qed.

(** A message of the log shows, with everything in it, in the text of the
    binding. *)
Lemma logText_shows clock st m t :
  m ∈ NewGo.log st -> Contains (NewGo.render m) t = true ->
  Contains (NewGo.logText clock st) t = true.
Proof.
  intros Hin Ht. unfold NewGo.logText.
  destruct (logTextFrom_shows clock 0 "" _ _ Hin) as (a & b & ->).
  now apply Contains_within.
Qed.

(** ** States of [new.go] *)

Lemma newLog_app before after ms :
  NewGo.log after = NewGo.log before ++ ms -> NewGo.newLog before after = ms.
Proof. intros E. unfold NewGo.newLog. rewrite E. apply drop_app_length. Qed.

Lemma newTrace_app before after evs :
  NewGo.trace after = NewGo.trace before ++ evs -> NewGo.newTrace before after = evs.
Proof. intros E. unfold NewGo.newTrace. rewrite E. apply drop_app_length. Qed.

(** Case analysis on everything the environment answers during one pass
    through the loop body. *)
Ltac answers :=
  repeat (match goal with
          | |- context [newRequestErr ?e ?m ?u] => destruct (newRequestErr e m u) eqn:?
          | |- context [clientDo ?e ?r] => destruct (clientDo e r) eqn:?
          | |- context [Nat.eqb (StatusCode ?r) ?n] =>
              destruct (Nat.eqb (StatusCode r) n) eqn:?
          | |- context [tempDir ?e ?d ?p] => destruct (tempDir e d p) eqn:?
          | |- context [runGit ?e ?a] => destruct (runGit e a) as [? [?|]] eqn:?
          | |- context [removeAll ?e ?p] => destruct (removeAll e p) eqn:?
          | |- context [mkdirAll ?e ?p] => destruct (mkdirAll e p) eqn:?
          | |- context [rename ?e ?a ?b] => destruct (rename e a b) eqn:?
          | |- context [if ?b then _ else _] => is_var b; destruct b
          | |- context [if MainGo.deleteAfter ?f then _ else _] =>
              destruct (MainGo.deleteAfter f) eqn:?
          end; simpl).

Ltac unfold_pass :=
  unfold NewGo.processRepo, NewGo.createAzureRepo, NewGo.TempDir, NewGo.git,
    NewGo.RemoveAll, NewGo.MkdirAll, NewGo.Rename; simpl.

(** After the case analysis the log and the trace are the old ones followed
    by explicit lists. *)
Ltac flatten_new :=
  try (apply newLog_app; simpl);
  try (apply newTrace_app; simpl);
  rewrite <- ?app_assoc; simpl.

(** ** Listing *)

(** C10: [getGitHubRepos] never reads its [user] argument: with the same
    token and the same answers of the environment, two calls with different
    users return the same list (and send the same request). *)
Theorem getGitHubRepos_ignores_user (env : Env) (user1 user2 token : string) (st : NewGo.St) :
  NewGo.getGitHubRepos env user1 token st = NewGo.getGitHubRepos env user2 token st.
Proof. reflexivity. Qed.

(** ** Provisioning *)

(** The result of [createAzureRepo] once the request was sent and answered:
    the push URL for status 201, an error for every other status. *)
Lemma createAzureRepo_answered env repo org project token st resp :
  newRequestErr env "POST" (URL (NewGo.createRequest repo org project token)) = None ->
  clientDo env (NewGo.createRequest repo org project token) = inl resp ->
  NewGo.createAzureRepo env repo org project token st =
    (if Nat.eqb (StatusCode resp) 201
     then inl (ReplaceFirst (decodeRemoteUrl env (Body resp)) "dev.azure.com"
                 (token +:+ "@dev.azure.com"))
     else inr ("Azure API error: " +:+ Status resp),
     NewGo.emit (EvHttp (NewGo.createRequest repo org project token)) st).
Proof.
  intros Hreq Hdo. unfold NewGo.createAzureRepo. rewrite Hreq, Hdo.
  now destruct (Nat.eqb (StatusCode resp) 201).
Qed.

(** C3, as the code has it: [createAzureRepo] succeeds only on status
    [201 Created], with the [remoteUrl] of the answer in which the token is
    put before the first [dev.azure.com]; every other status, the one for a
    repository that already exists included, is the error
    ["Azure API error: " status]. *)
Theorem createAzureRepo_only_201 (env : Env) (repo org project token : string)
  (st : NewGo.St) (resp : Response) :
  newRequestErr env "POST" (URL (NewGo.createRequest repo org project token)) = None ->
  clientDo env (NewGo.createRequest repo org project token) = inl resp ->
  (StatusCode resp = 201 ->
   fst (NewGo.createAzureRepo env repo org project token st) =
     inl (ReplaceFirst (decodeRemoteUrl env (Body resp)) "dev.azure.com"
            (token +:+ "@dev.azure.com")))
  /\ (StatusCode resp <> 201 ->
      fst (NewGo.createAzureRepo env repo org project token st) =
        inr ("Azure API error: " +:+ Status resp)).
Proof.
  intros Hreq Hdo. rewrite (createAzureRepo_answered _ _ _ _ _ _ _ Hreq Hdo). simpl.
  split; intros H.
  - now rewrite H.
  - apply Nat.eqb_neq in H. now rewrite H.
Qed.

Lemma createAzureRepo_only_201_witness :
  fst (NewGo.createAzureRepo (Scenario.world [] ["org/a"]) "org/a"
         "https://dev.azure.com/org" "proj" "az_SECRET" NewGo.start)
  = inr "Azure API error: 409 Conflict".
Proof.
  refine (proj2 (createAzureRepo_only_201 (Scenario.world [] ["org/a"]) "org/a"
                   "https://dev.azure.com/org" "proj" "az_SECRET" NewGo.start
                   {| StatusCode := 409; Status := "409 Conflict"; Body := "" |}
                   _ _) _).
  - reflexivity.
  - reflexivity.
  - simpl. lia.
Defined.

(** C3 fails on the code: the first call creates the repository, the second
    one, answered [409 Conflict] because the repository now exists, is an
    error. *)
Lemma createAzureRepo_twice_fails :
  fst (NewGo.createAzureRepo (Scenario.world [] []) "org/a"
         "https://dev.azure.com/org" "proj" "az_SECRET" NewGo.start)
  = inl "https://az_SECRET@dev.azure.com/org/proj/_git/org/a"
  /\ fst (NewGo.createAzureRepo (Scenario.world [] ["org/a"]) "org/a"
            "https://dev.azure.com/org" "proj" "az_SECRET" NewGo.start)
     = inr "Azure API error: 409 Conflict".
Proof. split; reflexivity. Qed.

(** ** Credentials in the log *)

(** Whatever happens after the repository was created, the pass logs the
    push URL. *)
Lemma processRepo_logs_created githubToken azureToken azureOrg azureProject
  dontSave env repo st resp :
  newRequestErr env "POST"
    (URL (NewGo.createRequest repo azureOrg azureProject azureToken)) = None ->
  clientDo env (NewGo.createRequest repo azureOrg azureProject azureToken) = inl resp ->
  StatusCode resp = 201 ->
  NewGo.MCreated (ReplaceFirst (decodeRemoteUrl env (Body resp)) "dev.azure.com"
                    (azureToken +:+ "@dev.azure.com"))
  ∈ NewGo.log (NewGo.processRepo githubToken azureToken azureOrg azureProject
                 dontSave env repo st).
Proof.
  intros Hreq Hdo H201. unfold NewGo.processRepo.
  rewrite (createAzureRepo_answered _ _ _ _ _ _ _ Hreq Hdo), H201. simpl.
  unfold NewGo.TempDir, NewGo.git, NewGo.RemoveAll, NewGo.MkdirAll, NewGo.Rename.
  simpl. answers; rewrite <- ?app_assoc; simpl; set_solver.
Qed.

(** C4, as the code has it: nothing is redacted. When the repository is
    created and the [remoteUrl] of the answer mentions [dev.azure.com], the
    text of the log holds the Azure token: it is part of the push URL that
    the message ["Created Azure repo: ..."] prints. *)
Theorem log_shows_azure_token (githubToken azureToken azureOrg azureProject : string)
  (dontSave : bool) (env : Env) (repo : string) (st : NewGo.St) (resp : Response)
  (clock : nat -> string) :
  newRequestErr env "POST"
    (URL (NewGo.createRequest repo azureOrg azureProject azureToken)) = None ->
  clientDo env (NewGo.createRequest repo azureOrg azureProject azureToken) = inl resp ->
  StatusCode resp = 201 ->
  Contains (decodeRemoteUrl env (Body resp)) "dev.azure.com" = true ->
  Contains
    (NewGo.logText clock
       (NewGo.processRepo githubToken azureToken azureOrg azureProject
          dontSave env repo st))
    azureToken = true.
Proof.
  intros Hreq Hdo H201 Hurl.
  eapply logText_shows.
  - eapply processRepo_logs_created; eassumption.
  - change (NewGo.render (NewGo.MCreated ?u)) with ("Created Azure repo: " +:+ u).
    rewrite <- (append_empty_r (ReplaceFirst _ _ _)).
    apply Contains_within. now apply token_in_replacement.
Qed.

Lemma log_shows_azure_token_witness :
  Contains
    (NewGo.logText (fun _ => "12:00:00")
       (NewGo.processRepo "ghp_SECRET" "az_SECRET" "https://dev.azure.com/org" "proj"
          true (Scenario.world [] []) "org/a" NewGo.start))
    "az_SECRET" = true.
Proof.
  apply (log_shows_azure_token "ghp_SECRET" "az_SECRET" "https://dev.azure.com/org"
           "proj" true (Scenario.world [] []) "org/a" NewGo.start
           {| StatusCode := 201; Status := "201 Created"; Body := "org/a" |});
    reflexivity.
Defined.

(** C4 fails on the code: after one click on a form filled with the token
    [az_SECRET], the text of the log holds that token in clear. *)
Lemma log_leaks_azure_token :
  let final :=
    NewGo.onMigrate Scenario.newForm (fun _ => true)
      (Scenario.world ["org/a"] []) (fun _ => Scenario.world ["org/a"] [])
      NewGo.start in
  NewGo.MCreated "https://az_SECRET@dev.azure.com/org/proj/_git/org/a" ∈ NewGo.log final
  /\ Contains (NewGo.logText (fun _ => "12:00:00") final) "az_SECRET" = true.
Proof. split; [vm_compute; set_solver | vm_compute; reflexivity]. Qed.

(** ** One record per repository *)

Lemma processRepo_report githubToken azureToken azureOrg azureProject dontSave env repo st :
  exists o,
    NewGo.report (NewGo.log (NewGo.processRepo githubToken azureToken azureOrg
                               azureProject dontSave env repo st))
    = NewGo.report (NewGo.log st) ++ [(repo, o)].
Proof.
  unfold_pass. unfold NewGo.report.
  answers; rewrite ?omap_app; simpl; rewrite ?app_nil_r; eexists; reflexivity.
Qed.

Lemma processAll_report githubToken azureToken azureOrg azureProject checked envs repos :
  forall i st,
    map fst (NewGo.report (NewGo.log (NewGo.processAll githubToken azureToken azureOrg
                                        azureProject checked envs i repos st)))
    = map fst (NewGo.report (NewGo.log st)) ++ repos.
Proof.
  induction repos as [|repo rest IH]; intros i st; simpl.
  - now rewrite app_nil_r.
  - rewrite IH.
    destruct (processRepo_report githubToken azureToken azureOrg azureProject
                (checked i) (envs i) repo st) as (o & ->).
    rewrite map_app. simpl. now rewrite <- app_assoc.
Qed.

Lemma getGitHubRepos_log env user token st :
  NewGo.log (snd (NewGo.getGitHubRepos env user token st)) = NewGo.log st.
Proof. unfold NewGo.getGitHubRepos. answers; reflexivity. Qed.

Lemma getGitHubRepos_list env user token st st' :
  fst (NewGo.getGitHubRepos env user token st)
  = fst (NewGo.getGitHubRepos env user token st').
Proof. unfold NewGo.getGitHubRepos. answers; reflexivity. Qed.

Lemma onMigrate_report form checked listing envs :
  NewGo.filled form = true ->
  NewGo.fetched form listing <> [] ->
  map fst (NewGo.report (NewGo.log (NewGo.onMigrate form checked listing envs NewGo.start)))
  = NewGo.fetched form listing.
Proof.
  unfold NewGo.filled, NewGo.fetched, NewGo.onMigrate. intros Hfilled Hne.
  apply negb_true_iff in Hfilled. rewrite Hfilled.
  set (st1 := NewGo.appendLog NewGo.MFetching (NewGo.appendLog NewGo.MStarting NewGo.start)).
  rewrite (getGitHubRepos_list listing "" _ NewGo.start st1) in Hne |- *.
  pose proof (getGitHubRepos_log listing "" (TrimSpace (NewGo.githubTokenEntry form)) st1)
    as Hlog.
  destruct (NewGo.getGitHubRepos listing "" (TrimSpace (NewGo.githubTokenEntry form)) st1)
    as [repos st2].
  simpl in Hne, Hlog. destruct repos as [|repo rest]; [congruence|].
  cbn [fst snd NewGo.log NewGo.appendLog].
  unfold NewGo.report at 1. rewrite omap_app. simpl omap at 2. rewrite app_nil_r.
  change (omap NewGo.terminal ?l) with (NewGo.report l).
  rewrite processAll_report. simpl. rewrite Hlog. reflexivity.
Qed.

(** ** One call of [migrateRepo] *)

Ltac unfold_call :=
  unfold MainGo.task, MainGo.migrateRepo, MainGo.run, MainGo.RemoveAll; simpl.

Lemma migrateRepo_one_terminal form env repo d :
  exists m, List.filter MainGo.terminal (MainGo.said (MainGo.task form env repo d)) = [m].
Proof.
  unfold_call. unfold MainGo.said. answers; eexists; reflexivity.
Qed.

(** C1, as the code has it. In [new.go] the repositories are migrated one
    after the other: when the form is filled and GitHub lists at least one
    repository, the log holds exactly one closing message (success, or the
    failure of one step) per listed repository, in the order of the list.
    In [main.go] every call of [migrateRepo] logs exactly one closing
    message; the calls are goroutines, so the label receives the messages in
    the order in which the goroutines run. *)
Theorem one_closing_message_per_repository :
  (forall form checked listing envs,
      NewGo.filled form = true ->
      NewGo.fetched form listing <> [] ->
      map fst (NewGo.report
                 (NewGo.log (NewGo.onMigrate form checked listing envs NewGo.start)))
      = NewGo.fetched form listing)
  /\ (forall form env repo d,
         exists m,
           List.filter MainGo.terminal (MainGo.said (MainGo.task form env repo d)) = [m]).
Proof.
  split.
  - apply onMigrate_report.
  - apply migrateRepo_one_terminal.
Qed.

Lemma one_closing_message_per_repository_witness :
  map fst (NewGo.report
             (NewGo.log (NewGo.onMigrate Scenario.newForm (fun _ => false)
                           (Scenario.world ["org/a"; "org/b"] [])
                           (fun i => Scenario.failing "push" [] [])
                           NewGo.start)))
  = ["org/a"; "org/b"].
Proof.
  apply (proj1 one_closing_message_per_repository Scenario.newForm (fun _ => false)
           (Scenario.world ["org/a"; "org/b"] []) (fun i => Scenario.failing "push" [] [])).
  - reflexivity.
  - discriminate.
Defined.

(** C1 fails on [main.go]: for the list ["a,b"], when the goroutine of [b]
    runs before the one of [a], the label reports [b] first. *)
Lemma records_follow_the_schedule :
  let gs := MainGo.spawn (Scenario.mainForm "a,b" false) (fun _ => Scenario.world [] []) in
  let final := MainGo.runSchedule [1; 1; 1; 1; 1; 1; 1; 0; 0; 0; 0; 0; 0; 0] MainGo.logBoxStart gs in
  MainGo.workList (Scenario.mainForm "a,b" false) = ["a"; "b"]
  /\ MainGo.allDone (snd final) = true
  /\ MainGo.records (fst final)
     = ["Successfully migrated repository: b"; "Successfully migrated repository: a"].
Proof. vm_compute. auto. Qed.

(** The label is read and written in two steps: when both goroutines read
    before either writes, a record is lost altogether. *)
Lemma records_can_be_lost :
  let gs := MainGo.spawn (Scenario.mainForm "a,b" false) (fun _ => Scenario.world [] []) in
  let final := MainGo.runSchedule [0; 0; 1; 1; 0; 0; 0; 1; 1; 1; 0; 1; 0; 1] MainGo.logBoxStart gs in
  MainGo.allDone (snd final) = true
  /\ MainGo.records (fst final) = ["Successfully migrated repository: b"].
Proof. vm_compute. auto. Qed.

(** ** The commands of a transfer *)

(** A list is not a member of a list of messages built from other
    constructors. *)
Ltac not_logged H :=
  exfalso;
  repeat (apply elem_of_cons in H as [H|H]; [discriminate H|]);
  now apply elem_of_nil in H.

Ltac unfold_reading :=
  unfold NewGo.pushURLOf, NewGo.workspaceOf.

(** The new state extends the old one by an explicit list. *)
Ltac as_extension :=
  simpl; rewrite <- ?app_assoc; first [reflexivity | symmetry; apply app_nil_r].

Lemma processRepo_commands githubToken azureToken azureOrg azureProject dontSave env repo st :
  let st' := NewGo.processRepo githubToken azureToken azureOrg azureProject
               dontSave env repo st in
  let todo := NewGo.plan githubToken repo
                (NewGo.pushURLOf env repo azureOrg azureProject azureToken)
                (NewGo.workspaceOf env repo) in
  gitCommands (NewGo.newTrace st st') `prefix_of` todo
  /\ (NewGo.MSuccess repo ∈ NewGo.newLog st st' ->
      gitCommands (NewGo.newTrace st st') = todo
      /\ Forall (fun argv => snd (runGit env argv) = None) todo).
Proof.
  unfold_reading. unfold_pass.
  answers;
    (split;
     [ erewrite newTrace_app by as_extension;
       simpl; eexists; reflexivity
     | erewrite newLog_app by as_extension;
       erewrite newTrace_app by as_extension;
       simpl; intros H;
       first [ not_logged H
             | split; [reflexivity|];
               repeat constructor; simpl;
               match goal with E : runGit _ _ = _ |- _ => now rewrite E end ] ]).
Qed.

Lemma migrateRepo_commands form env repo d :
  let st := MainGo.task form env repo d in
  let todo := MainGo.plan (TrimSpace (MainGo.gitHubOrg form)) (TrimSpace (MainGo.adoOrg form))
                (TrimSpace (MainGo.adoProject form)) repo
                (TrimSpace (MainGo.gitPat form)) (TrimSpace (MainGo.adoPat form)) in
  gitCommands (MainGo.called st) `prefix_of` todo
  /\ (forall m, m ∈ MainGo.said st -> MainGo.succeeded m = true ->
      gitCommands (MainGo.called st) = todo
      /\ Forall (fun argv => snd (runGit env argv) = None) todo).
Proof.
  unfold_call. unfold MainGo.said, MainGo.called, MainGo.plan.
  answers;
    (split;
     [ eexists; reflexivity
     | intros m H Hm;
       repeat (apply elem_of_cons in H as [->|H]; [try discriminate Hm|]);
       try (now apply elem_of_nil in H);
       (split; [reflexivity|]);
       repeat constructor; simpl;
       match goal with E : runGit _ _ = _ |- _ => now rewrite E end ]).
Qed.

(** C5, as the code has it. The [git] commands of one pass of [new.go] are
    an initial part of: a bare clone of the source into the temporary
    directory, [remote add azure], [push azure --all], [push azure --tags];
    all four, in that order, when the pass logs its success. The commands of
    one call of [migrateRepo] in [main.go] are an initial part of: a mirror
    clone, [remote add azure-devops], one [push --mirror]; all three when
    the call logs a success. *)
Theorem commands_follow_the_plan :
  (forall githubToken azureToken azureOrg azureProject dontSave env repo st,
      let st' := NewGo.processRepo githubToken azureToken azureOrg azureProject
                   dontSave env repo st in
      let todo := NewGo.plan githubToken repo
                    (NewGo.pushURLOf env repo azureOrg azureProject azureToken)
                    (NewGo.workspaceOf env repo) in
      gitCommands (NewGo.newTrace st st') `prefix_of` todo
      /\ (NewGo.MSuccess repo ∈ NewGo.newLog st st' ->
          gitCommands (NewGo.newTrace st st') = todo))
  /\ (forall form env repo d,
         let st := MainGo.task form env repo d in
         let todo := MainGo.plan (TrimSpace (MainGo.gitHubOrg form))
                       (TrimSpace (MainGo.adoOrg form))
                       (TrimSpace (MainGo.adoProject form)) repo
                       (TrimSpace (MainGo.gitPat form)) (TrimSpace (MainGo.adoPat form)) in
         gitCommands (MainGo.called st) `prefix_of` todo
         /\ (forall m, m ∈ MainGo.said st -> MainGo.succeeded m = true ->
             gitCommands (MainGo.called st) = todo)).
Proof.
  split.
  - intros githubToken azureToken azureOrg azureProject dontSave env repo st.
    destruct (processRepo_commands githubToken azureToken azureOrg azureProject
                dontSave env repo st) as [Hpre Hall].
    split; [exact Hpre | intros H; exact (proj1 (Hall H))].
  - intros form env repo d.
    destruct (migrateRepo_commands form env repo d) as [Hpre Hall].
    split; [exact Hpre | intros m H Hm; exact (proj1 (Hall m H Hm))].
Qed.

Lemma commands_follow_the_plan_witness :
  gitCommands
    (NewGo.newTrace NewGo.start
       (NewGo.processRepo "ghp_SECRET" "az_SECRET" "https://dev.azure.com/org" "proj"
          true (Scenario.world [] []) "org/a" NewGo.start))
  = [ ["git"; "clone"; "--bare"; "https://ghp_SECRET@github.com/org/a.git"; "/tmp/org_a042"];
      ["git"; "-C"; "/tmp/org_a042"; "remote"; "add"; "azure";
       "https://az_SECRET@dev.azure.com/org/proj/_git/org/a"];
      ["git"; "-C"; "/tmp/org_a042"; "push"; "azure"; "--all"];
      ["git"; "-C"; "/tmp/org_a042"; "push"; "azure"; "--tags"] ]
  /\ gitCommands
       (MainGo.called (MainGo.task (Scenario.mainForm "a" false) (Scenario.world [] []) "a" ∅))
     = [ ["git"; "clone"; "--mirror"; "https://ghp_SECRET@github.com/org/a.git"];
         ["git"; "-C"; "a.git"; "remote"; "add"; "azure-devops";
          "https://az_SECRET@dev.azure.com/ado/proj/_git/a"];
         ["git"; "-C"; "a.git"; "push"; "--mirror"; "azure-devops"] ].
Proof.
  split.
  - apply (proj2 (proj1 commands_follow_the_plan "ghp_SECRET" "az_SECRET"
                    "https://dev.azure.com/org" "proj" true (Scenario.world [] [])
                    "org/a" NewGo.start)).
    vm_compute. set_solver.
  - apply (proj2 (proj2 commands_follow_the_plan (Scenario.mainForm "a" false)
                    (Scenario.world [] []) "a" ∅) (MainGo.MSuccess "a")).
    + vm_compute. set_solver.
    + reflexivity.
Defined.

(** C5 fails on the code: when every step succeeds, the commands of
    [new.go] start with a [--bare] clone, not a mirror clone, and
    [main.go] issues three commands, with a single [push --mirror] in place
    of a push of the branches followed by a push of the tags. *)
Lemma transfer_is_not_the_described_one :
  let pass := NewGo.processRepo "ghp_SECRET" "az_SECRET" "https://dev.azure.com/org" "proj"
                true (Scenario.world [] []) "org/a" NewGo.start in
  let call := MainGo.task (Scenario.mainForm "a" false) (Scenario.world [] []) "a" ∅ in
  NewGo.MSuccess "org/a" ∈ NewGo.log pass
  /\ head (gitCommands (NewGo.trace pass))
     = Some ["git"; "clone"; "--bare"; "https://ghp_SECRET@github.com/org/a.git";
             "/tmp/org_a042"]
  /\ specTransfer (gitCommands (NewGo.trace pass)) = false
  /\ MainGo.MSuccess "a" ∈ MainGo.said call
  /\ length (gitCommands (MainGo.called call)) = 3
  /\ specTransfer (gitCommands (MainGo.called call)) = false.
Proof. vm_compute. repeat split; set_solver. Qed.

(** ** Success and the two pushes *)

(** C6: a pass of [new.go] logs ["Successfully migrated ..."] only if
    [push azure --all] and [push azure --tags] were both run, in that order
    after the clone and the remote, and both returned without error; a call
    of [migrateRepo] in [main.go] logs a success only if its
    [push --mirror], which pushes branches and tags at once, was run and
    returned without error. *)
Theorem success_only_after_both_pushes :
  (forall githubToken azureToken azureOrg azureProject dontSave env repo st,
      let st' := NewGo.processRepo githubToken azureToken azureOrg azureProject
                   dontSave env repo st in
      let d := NewGo.workspaceOf env repo in
      NewGo.MSuccess repo ∈ NewGo.newLog st st' ->
      snd (runGit env ["git"; "-C"; d; "push"; "azure"; "--all"]) = None
      /\ snd (runGit env ["git"; "-C"; d; "push"; "azure"; "--tags"]) = None
      /\ drop 2 (gitCommands (NewGo.newTrace st st'))
         = [ ["git"; "-C"; d; "push"; "azure"; "--all"];
             ["git"; "-C"; d; "push"; "azure"; "--tags"] ])
  /\ (forall form env repo d m,
         let st := MainGo.task form env repo d in
         m ∈ MainGo.said st -> MainGo.succeeded m = true ->
         snd (runGit env ["git"; "-C"; MainGo.dirNameOf repo; "push"; "--mirror";
                          "azure-devops"]) = None
         /\ drop 2 (gitCommands (MainGo.called st))
            = [ ["git"; "-C"; MainGo.dirNameOf repo; "push"; "--mirror"; "azure-devops"] ]).
Proof.
  split.
  - intros githubToken azureToken azureOrg azureProject dontSave env repo st st' d H.
    destruct (proj2 (processRepo_commands githubToken azureToken azureOrg azureProject
                       dontSave env repo st) H) as [Hcmds Hok].
    fold st' in Hcmds. rewrite Hcmds. unfold NewGo.plan in Hok |- *.
    apply Forall_cons in Hok as [_ Hok]. apply Forall_cons in Hok as [_ Hok].
    apply Forall_cons in Hok as [Hall Hok]. apply Forall_cons in Hok as [Htags _].
    auto.
  - intros form env repo d m st H Hm.
    destruct (proj2 (migrateRepo_commands form env repo d) m H Hm) as [Hcmds Hok].
    fold st in Hcmds. rewrite Hcmds. unfold MainGo.plan in Hok |- *.
    apply Forall_cons in Hok as [_ Hok]. apply Forall_cons in Hok as [_ Hok].
    apply Forall_cons in Hok as [Hpush _].
    auto.
Qed.

Lemma success_only_after_both_pushes_witness :
  snd (runGit (Scenario.world [] []) ["git"; "-C"; "/tmp/org_a042"; "push"; "azure"; "--tags"])
  = None
  /\ snd (runGit (Scenario.world [] [])
            ["git"; "-C"; "a.git"; "push"; "--mirror"; "azure-devops"]) = None.
Proof.
  split.
  - apply (proj1 success_only_after_both_pushes "ghp_SECRET" "az_SECRET"
             "https://dev.azure.com/org" "proj" true (Scenario.world [] [])
             "org/a" NewGo.start).
    vm_compute. set_solver.
  - apply (proj2 success_only_after_both_pushes (Scenario.mainForm "a" true)
             (Scenario.world [] []) "a" ∅ (MainGo.MSuccessDeleted "a")).
    + vm_compute. set_solver.
    + reflexivity.
Defined.

(** ** Attempts *)




Lemma migrateRepo_attempt form env repo d :
  let st := MainGo.task form env repo d in
  MainGo.attempts (MainGo.said st) = 1
  /\ length (List.filter isClone (gitCommands (MainGo.called st))) <= 1.
Proof.
  unfold_call. unfold MainGo.said, MainGo.called.
  answers; simpl; split; (reflexivity || lia).
Qed.

(** ** The directory of the clone *)

(** In [new.go] the temporary directory is removed on every path that does
    not keep the clone: if the directory did not exist before the pass,
    [os.RemoveAll] succeeds on it and the box "Don't save local clone" is
    checked, it does not exist after the pass. *)
Lemma processRepo_removes_workspace githubToken azureToken azureOrg azureProject env repo st d :
  d ∉ NewGo.dirs st ->
  tempDir env "" (ReplaceAll repo "/" "_") = inl d ->
  removeAll env d = None ->
  d ∉ NewGo.dirs (NewGo.processRepo githubToken azureToken azureOrg azureProject
                    true env repo st).
Proof.
  intros Hfresh Htmp Hrm. unfold_pass.
  change (replace_scan "/" "_" 0 repo) with (ReplaceAll repo "/" "_").
  rewrite Htmp. simpl. rewrite Hrm. simpl.
  answers; set_unfold; tauto.
Qed.

(** When the clone is to be kept, a failed pass still removes the
    directory. *)
Lemma processRepo_failure_removes_workspace githubToken azureToken azureOrg azureProject
  dontSave env repo st d :
  d ∉ NewGo.dirs st ->
  tempDir env "" (ReplaceAll repo "/" "_") = inl d ->
  removeAll env d = None ->
  let st' := NewGo.processRepo githubToken azureToken azureOrg azureProject
               dontSave env repo st in
  NewGo.MSuccess repo ∉ NewGo.newLog st st' ->
  d ∉ NewGo.dirs st'.
Proof.
  intros Hfresh Htmp Hrm. unfold_pass.
  change (replace_scan "/" "_" 0 repo) with (ReplaceAll repo "/" "_").
  rewrite Htmp. simpl. rewrite Hrm. simpl.
  answers; erewrite newLog_app by as_extension; intros Hno;
    first [ set_unfold; tauto | exfalso; apply Hno; repeat constructor ].
Qed.

(** C2 fails on [main.go]: the box "Don't Save (Delete after Migration)" is
    checked, the clone succeeds and [git remote add] fails; [migrateRepo]
    returns after logging the failure, [os.RemoveAll] is never called and
    the directory [a.git] of the clone is still there. *)
Theorem failed_migration_leaves_the_clone :
  let form := Scenario.mainForm "a" true in
  let st := MainGo.task form (Scenario.failing "remote" [] []) "a" ∅ in
  MainGo.deleteAfter form = true
  /\ MainGo.said st = [MainGo.MMigrating "a"; MainGo.MFailRemote "exit status 128"]
  /\ MainGo.called st
     = [ EvGit ["git"; "clone"; "--mirror"; "https://ghp_SECRET@github.com/org/a.git"];
         EvGit ["git"; "-C"; "a.git"; "remote"; "add"; "azure-devops";
                "https://az_SECRET@dev.azure.com/ado/proj/_git/a"] ]
  /\ "a.git" ∈ MainGo.dirs st.
Proof.
  vm_compute. repeat split.
Qed.

(** ** The work list of [main.go] *)

Lemma HasPrefix_comma (c : ascii) (r : string) :
  HasPrefix (String c r) "," = Ascii.eqb c ",".
Proof.
  unfold HasPrefix.
  change (String.prefix "," (String c r))
    with (if ascii_dec "," c then String.prefix "" r else false).
  destruct (ascii_dec "," c) as [<-|Hne].
  - now destruct r.
  - symmetry. apply Ascii.eqb_neq. congruence.
Qed.

Lemma length_split_comma (s : string) :
  forall cur, length (split_scan "," 0 cur s) = S (countByte "," s).
Proof.
  induction s as [|c r IH]; intros cur; [reflexivity|].
  cbn [split_scan countByte]. rewrite HasPrefix_comma.
  destruct (Ascii.eqb c ","); simpl; now rewrite IH.
Qed.

Lemma migrateRepo_first_act form env repo d :
  exists rest,
    MainGo.acts (MainGo.task form env repo d) = MainGo.Say (MainGo.MMigrating repo) :: rest.
Proof. unfold_call. answers; eexists; reflexivity. Qed.

(** C8, as the code has it: the button starts one goroutine per
    comma-separated field of the entry, in order, on the trimmed field;
    nothing is dropped and nothing is deduplicated, so there is one
    goroutine more than there are commas, and the [i]-th one starts by
    logging ["Migrating repository: "] followed by the [i]-th field
    trimmed. *)
Theorem work_list_is_every_field (form : MainGo.Form) (envs : nat -> Env) :
  length (MainGo.workList form) = S (countByte "," (MainGo.repoList form))
  /\ length (MainGo.spawn form envs) = S (countByte "," (MainGo.repoList form))
  /\ forall i,
       (fun g => take 2 (MainGo.todo g)) <$> (MainGo.spawn form envs !! i)
       = (fun field =>
            [MainGo.SRead; MainGo.SWrite ("Migrating repository: " +:+ TrimSpace field)])
         <$> (Split (MainGo.repoList form) "," !! i).
Proof.
  assert (Hlen : length (MainGo.workList form) = S (countByte "," (MainGo.repoList form))).
  { unfold MainGo.workList, Split. rewrite length_map. apply length_split_comma. }
  split; [exact Hlen|]. split.
  - unfold MainGo.spawn. now rewrite length_imap.
  - intros i. unfold MainGo.spawn, MainGo.workList.
    rewrite list_lookup_imap, list_lookup_fmap.
    destruct (Split (MainGo.repoList form) "," !! i) as [field|]; [|reflexivity].
    simpl. f_equal.
    destruct (migrateRepo_first_act form (envs i) (TrimSpace field) ∅) as (rest & ->).
    reflexivity.
Qed.

(** C8 fails on the code: the entry ["a, ,a"] gives three tasks, one of
    them for the empty name and two for [a], where the spec describes the
    single task [a]. *)
Lemma work_list_keeps_empty_and_duplicate_entries :
  MainGo.workList (Scenario.mainForm "a, ,a" false) = ["a"; ""; "a"]
  /\ specWorkList "a, ,a" = ["a"]
  /\ MainGo.workList (Scenario.mainForm "a, ,a" false) <> specWorkList "a, ,a".
Proof. vm_compute. repeat split. discriminate. Qed.

(** ** Directories of the tasks of [main.go] *)




(** * Further properties of the two programs *)

(** ** The guards of the handler of [new.go] *)

(** When a field of the form is empty once trimmed, the handler logs the
    start and the error and returns: no request is sent, no command is run,
    no directory is touched. *)
Theorem missing_field_stops_the_handler (form : NewGo.Form) (checked : nat -> bool)
  (listing : Env) (envs : nat -> Env) (st : NewGo.St) :
  NewGo.filled form = false ->
  let st' := NewGo.onMigrate form checked listing envs st in
  NewGo.log st' = NewGo.log st ++ [NewGo.MStarting; NewGo.MAllRequired]
  /\ NewGo.trace st' = NewGo.trace st
  /\ NewGo.dirs st' = NewGo.dirs st.
Proof.
  unfold NewGo.filled, NewGo.onMigrate. intros H.
  apply negb_false_iff in H. rewrite H. simpl.
  rewrite <- app_assoc. auto.
Qed.

Lemma missing_field_stops_the_handler_witness :
  NewGo.trace
    (NewGo.onMigrate
       {| NewGo.githubTokenEntry := "ghp_SECRET"; NewGo.azureTokenEntry := "   ";
          NewGo.azureOrgEntry := "https://dev.azure.com/org";
          NewGo.azureProjectEntry := "proj" |}
       (fun _ => true) (Scenario.world ["org/a"] []) (fun _ => Scenario.world [] [])
       NewGo.start)
  = [].
Proof.
  apply (missing_field_stops_the_handler
           {| NewGo.githubTokenEntry := "ghp_SECRET"; NewGo.azureTokenEntry := "   ";
              NewGo.azureOrgEntry := "https://dev.azure.com/org";
              NewGo.azureProjectEntry := "proj" |}
           (fun _ => true) (Scenario.world ["org/a"] []) (fun _ => Scenario.world [] [])
           NewGo.start).
  reflexivity.
Defined.

(** [getGitHubRepos] sends at most one request, the GET of
    [/user/repos] that carries the token in its [Authorization] header, and
    swallows every failure: it returns a repository only if the request
    could be built, was answered, and the answer has status 200; the result
    is then the list of the [full_name] fields of the body. *)
Theorem getGitHubRepos_needs_status_200 (env : Env) (user token : string) (st : NewGo.St) :
  let res := NewGo.getGitHubRepos env user token st in
  (NewGo.trace (snd res) = NewGo.trace st
   \/ NewGo.trace (snd res) = NewGo.trace st ++ [EvHttp (listRequest token)])
  /\ (fst res <> [] ->
      exists resp,
        newRequestErr env "GET" (URL (listRequest token)) = None
        /\ clientDo env (listRequest token) = inl resp
        /\ StatusCode resp = 200
        /\ fst res = decodeFullNames env (Body resp)).
Proof.
  unfold NewGo.getGitHubRepos, listRequest. simpl.
  destruct (newRequestErr env "GET" "https://api.github.com/user/repos") eqn:Hreq; simpl.
  - split; [left; reflexivity | intros H; now elim H].
  - destruct (clientDo env _) as [resp|err] eqn:Hdo; simpl;
      [|split; [right; reflexivity | intros H; now elim H]].
    destruct (Nat.eqb (StatusCode resp) 200) eqn:Hst; simpl;
      [|split; [right; reflexivity | intros H; now elim H]].
    split; [right; reflexivity|].
    intros _. exists resp. apply Nat.eqb_eq in Hst. auto.
Qed.

Lemma getGitHubRepos_needs_status_200_witness :
  exists resp,
    clientDo (Scenario.world ["org/a"] []) (listRequest "ghp_SECRET") = inl resp
    /\ StatusCode resp = 200.
Proof.
  destruct (proj2 (getGitHubRepos_needs_status_200 (Scenario.world ["org/a"] []) ""
                     "ghp_SECRET" NewGo.start)) as (resp & _ & Hdo & Hst & _).
  - discriminate.
  - exists resp. split; assumption.
Defined.

(** When the form is filled and GitHub gives no repository (an empty list,
    an error, or a status other than 200), the handler logs that nothing
    was found and stops: apart from the listing request, nothing leaves the
    process, and ["Migration completed."] is not logged. *)
Theorem nothing_listed_nothing_done (form : NewGo.Form) (checked : nat -> bool)
  (listing : Env) (envs : nat -> Env) (st : NewGo.St) :
  NewGo.filled form = true ->
  NewGo.fetched form listing = [] ->
  let st' := NewGo.onMigrate form checked listing envs st in
  NewGo.log st' = NewGo.log st ++ [NewGo.MStarting; NewGo.MFetching; NewGo.MNoRepos]
  /\ gitCommands (NewGo.newTrace st st') = []
  /\ length (httpRequests (NewGo.newTrace st st')) <= 1
  /\ NewGo.dirs st' = NewGo.dirs st.
Proof.
  unfold NewGo.filled, NewGo.fetched, NewGo.onMigrate. intros Hfilled Hnone.
  apply negb_true_iff in Hfilled. rewrite Hfilled.
  set (st1 := NewGo.appendLog NewGo.MFetching (NewGo.appendLog NewGo.MStarting st)).
  rewrite (getGitHubRepos_list listing "" _ NewGo.start st1) in Hnone.
  revert Hnone. unfold NewGo.getGitHubRepos. subst st1.
  answers; intros Hnone; simpl in Hnone; try rewrite Hnone; simpl;
    (split; [as_extension|]);
    erewrite newTrace_app by as_extension; simpl; auto with arith.
Qed.

Lemma nothing_listed_nothing_done_witness :
  NewGo.log
    (NewGo.onMigrate Scenario.newForm (fun _ => true) (Scenario.world [] [])
       (fun _ => Scenario.world [] []) NewGo.start)
  = [NewGo.MStarting; NewGo.MFetching; NewGo.MNoRepos].
Proof.
  apply (nothing_listed_nothing_done Scenario.newForm (fun _ => true) (Scenario.world [] [])
           (fun _ => Scenario.world [] []) NewGo.start); reflexivity.
Defined.

(** ** The push URL *)

Lemma ReplaceFirst_absent (s old new : string) :
  Contains s old = false -> ReplaceFirst s old new = s.
Proof.
  induction s as [|x s IH]; cbn [Contains ReplaceFirst]; intros H;
    apply orb_false_iff in H as [Hp H]; rewrite Hp; [reflexivity|].
  now rewrite IH.
Qed.

Lemma ReplaceFirst_first (s old new : string) :
  Contains s old = true ->
  exists a b,
    s = a +:+ old +:+ b
    /\ ReplaceFirst s old new = a +:+ new +:+ b
    /\ forall a1 a2, a = a1 +:+ a2 -> a2 <> "" -> HasPrefix (a2 +:+ old +:+ b) old = false.
Proof.
  induction s as [|x s IH]; cbn [Contains ReplaceFirst]; intros H.
  - rewrite orb_false_r in H. rewrite H.
    exists "", (drop_bytes (String.length old) ""). repeat split.
    + now apply HasPrefix_split.
    + intros [|y a1] a2 E Hne; simpl in E; [congruence | discriminate].
  - destruct (HasPrefix (String x s) old) eqn:Hp.
    + exists "", (drop_bytes (String.length old) (String x s)). repeat split.
      * now apply HasPrefix_split.
      * intros [|y a1] a2 E Hne; simpl in E; [congruence | discriminate].
    + destruct (IH H) as (a & b & Es & Er & Hfirst).
      exists (String x a), b. repeat split.
      * simpl. now rewrite <- Es.
      * simpl. now rewrite Er.
      * intros [|y a1] a2 E Hne; simpl in E.
        -- subst a2. simpl. rewrite <- Es. exact Hp.
        -- injection E as _ E. now apply (Hfirst a1 a2).
Qed.

(** The push URL [createAzureRepo] returns on status 201. When the
    [remoteUrl] of the answer does not mention [dev.azure.com] it is
    returned as it is, without any credential. Otherwise the token and an
    [@] are put before the first [dev.azure.com], and nowhere else. *)
Theorem push_url_holds_the_token_once (env : Env) (repo org project token : string)
  (st : NewGo.St) (resp : Response) :
  newRequestErr env "POST" (URL (NewGo.createRequest repo org project token)) = None ->
  clientDo env (NewGo.createRequest repo org project token) = inl resp ->
  StatusCode resp = 201 ->
  let remote := decodeRemoteUrl env (Body resp) in
  let result := fst (NewGo.createAzureRepo env repo org project token st) in
  (Contains remote "dev.azure.com" = false -> result = inl remote)
  /\ (Contains remote "dev.azure.com" = true ->
      exists a b,
        remote = a +:+ "dev.azure.com" +:+ b
        /\ result = inl (a +:+ token +:+ "@dev.azure.com" +:+ b)
        /\ forall a1 a2, a = a1 +:+ a2 -> a2 <> "" ->
             HasPrefix (a2 +:+ "dev.azure.com" +:+ b) "dev.azure.com" = false).
Proof.
  intros Hreq Hdo H201 remote result. subst result.
  rewrite (createAzureRepo_answered _ _ _ _ _ _ _ Hreq Hdo), H201.
  cbn [fst Nat.eqb]. fold remote. split; intros H.
  - now rewrite ReplaceFirst_absent.
  - destruct (ReplaceFirst_first remote "dev.azure.com" (token +:+ "@dev.azure.com") H)
      as (a & b & Es & Er & Hfirst).
    exists a, b. repeat split; trivial.
    rewrite Er. now rewrite append_assoc.
Qed.

Lemma push_url_holds_the_token_once_witness :
  fst (NewGo.createAzureRepo (Scenario.world [] []) "" "https://dev.azure.com/org" "proj"
         "az_SECRET" NewGo.start)
  = inl "".
Proof.
  apply (proj1 (push_url_holds_the_token_once (Scenario.world [] []) ""
                  "https://dev.azure.com/org" "proj" "az_SECRET" NewGo.start
                  {| StatusCode := 201; Status := "201 Created"; Body := "" |}
                  eq_refl eq_refl eq_refl)).
  reflexivity.
Defined.

(** ** A repository that cannot be created *)

(** When [createAzureRepo] fails, the pass logs the error and moves on to
    the next repository: no temporary directory is made, no [git] command
    is run, and at most the one request was sent. *)
Theorem failed_provisioning_ends_the_pass
  (githubToken azureToken azureOrg azureProject : string) (dontSave : bool) (env : Env)
  (repo : string) (st : NewGo.St) (err : error) :
  fst (NewGo.createAzureRepo env repo azureOrg azureProject azureToken NewGo.start)
  = inr err ->
  let st' := NewGo.processRepo githubToken azureToken azureOrg azureProject
               dontSave env repo st in
  NewGo.newLog st st' = [NewGo.MMigrating repo; NewGo.MErrCreate repo err]
  /\ gitCommands (NewGo.newTrace st st') = []
  /\ (forall dir pattern, EvTempDir dir pattern ∉ NewGo.newTrace st st')
  /\ length (httpRequests (NewGo.newTrace st st')) <= 1
  /\ NewGo.dirs st' = NewGo.dirs st.
Proof.
  unfold_pass.
  destruct (newRequestErr env "POST" _) eqn:Hreq; simpl.
  - intros [= ->].
    erewrite newLog_app by as_extension. erewrite newTrace_app by as_extension.
    simpl. repeat split; auto with arith. intros dir pattern H. inversion H.
  - destruct (clientDo env _) as [resp|e] eqn:Hdo; simpl.
    + destruct (Nat.eqb (StatusCode resp) 201) eqn:H201; simpl; [discriminate|].
      intros [= <-].
      erewrite newLog_app by as_extension. erewrite newTrace_app by as_extension.
      simpl. repeat split; auto with arith.
      intros dir pattern H. apply list_elem_of_singleton in H. discriminate.
    + intros [= ->].
      erewrite newLog_app by as_extension. erewrite newTrace_app by as_extension.
      simpl. repeat split; auto with arith.
      intros dir pattern H. apply list_elem_of_singleton in H. discriminate.
Qed.

Lemma failed_provisioning_ends_the_pass_witness :
  NewGo.newLog NewGo.start
    (NewGo.processRepo "ghp_SECRET" "az_SECRET" "https://dev.azure.com/org" "proj"
       true (Scenario.world [] ["org/a"]) "org/a" NewGo.start)
  = [NewGo.MMigrating "org/a"; NewGo.MErrCreate "org/a" "Azure API error: 409 Conflict"].
Proof.
  apply (failed_provisioning_ends_the_pass "ghp_SECRET" "az_SECRET"
           "https://dev.azure.com/org" "proj" true (Scenario.world [] ["org/a"])
           "org/a" NewGo.start "Azure API error: 409 Conflict").
  reflexivity.
Defined.

(** ** Credentials on the command line *)

Lemma prefix_elem_of {A} (l1 l2 : list A) (x : A) : l1 `prefix_of` l2 -> x ∈ l1 -> x ∈ l2.
Proof. intros [k ->] H. apply elem_of_app. now left. Qed.

(** The tokens are handed to [git] in clear, inside the URLs on its command
    line: the clone of [new.go] carries the GitHub token; in [main.go] the
    clone carries the GitHub token and [remote add] the Azure token. *)
Theorem tokens_are_on_the_command_line :
  (forall githubToken azureToken azureOrg azureProject dontSave env repo st argv,
      argv ∈ gitCommands
               (NewGo.newTrace st
                  (NewGo.processRepo githubToken azureToken azureOrg azureProject
                     dontSave env repo st)) ->
      isClone argv = true ->
      Exists (fun a => Contains a githubToken = true) argv)
  /\ (forall form env repo d argv,
         argv ∈ gitCommands (MainGo.called (MainGo.task form env repo d)) ->
         (isClone argv = true ->
          Exists (fun a => Contains a (TrimSpace (MainGo.gitPat form)) = true) argv)
         /\ (argv !! 3 = Some "remote" ->
             Exists (fun a => Contains a (TrimSpace (MainGo.adoPat form)) = true) argv)).
Proof.
  split.
  - intros githubToken azureToken azureOrg azureProject dontSave env repo st argv Hin Hclone.
    apply (prefix_elem_of _ _ _
             (proj1 (processRepo_commands githubToken azureToken azureOrg azureProject
                       dontSave env repo st))) in Hin.
    unfold NewGo.plan in Hin.
    repeat (apply elem_of_cons in Hin as [->|Hin]; [try discriminate Hclone|]).
    + do 3 apply Exists_cons_tl. apply Exists_cons_hd. apply Contains_inside.
    + now apply elem_of_nil in Hin.
  - intros form env repo d argv Hin.
    apply (prefix_elem_of _ _ _ (proj1 (migrateRepo_commands form env repo d))) in Hin.
    unfold MainGo.plan in Hin.
    repeat (apply elem_of_cons in Hin as [->|Hin];
            [split; intros H; try discriminate H|]).
    + do 3 apply Exists_cons_tl. apply Exists_cons_hd. apply Contains_inside.
    + do 6 apply Exists_cons_tl. apply Exists_cons_hd. apply Contains_inside.
    + now apply elem_of_nil in Hin.
Qed.

Lemma tokens_are_on_the_command_line_witness :
  Exists (fun a => Contains a "ghp_SECRET" = true)
    ["git"; "clone"; "--bare"; "https://ghp_SECRET@github.com/org/a.git"; "/tmp/org_a042"].
Proof.
  apply (proj1 tokens_are_on_the_command_line "ghp_SECRET" "az_SECRET"
           "https://dev.azure.com/org" "proj" true (Scenario.world [] []) "org/a"
           NewGo.start).
  - vm_compute. repeat constructor.
  - reflexivity.
Defined.

(** ** What is deleted *)



(** ** The name of the temporary directory *)

Lemma HasPrefix_byte (x c : ascii) (r : string) :
  HasPrefix (String c r) (String x "") = Ascii.eqb c x.
Proof.
  unfold HasPrefix.
  change (String.prefix (String x "") (String c r))
    with (if ascii_dec x c then String.prefix "" r else false).
  destruct (ascii_dec x c) as [<-|Hne].
  - rewrite Ascii.eqb_refl. now destruct r.
  - symmetry. apply Ascii.eqb_neq. congruence.
Qed.

Lemma ReplaceAll_slash (s : string) :
  Contains (ReplaceAll s "/" "_") "/" = false
  /\ String.length (ReplaceAll s "/" "_") = String.length s.
Proof.
  unfold ReplaceAll. induction s as [|c r [IHc IHl]]; [split; reflexivity|].
  cbn [replace_scan]. change (String.length "/" - 1) with 0. rewrite HasPrefix_byte.
  destruct (Ascii.eqb c "/") eqn:Hc.
  - change ("_" +:+ ?t) with (String "_" t). cbn [Contains String.length].
    rewrite HasPrefix_byte. change (Ascii.eqb "_" "/") with false.
    rewrite IHc, IHl. split; reflexivity.
  - cbn [Contains String.length]. rewrite HasPrefix_byte, Hc, IHc, IHl.
    split; reflexivity.
Qed.

(** The temporary directory is asked for in the default location, with the
    name of the repository in which every [/] is replaced by [_] as
    pattern: the pattern has the length of the name and no path separator,
    whatever the name is. *)
Theorem workspace_pattern_has_no_separator
  (githubToken azureToken azureOrg azureProject : string) (dontSave : bool) (env : Env)
  (repo : string) (st : NewGo.St) (dir pattern : string) :
  EvTempDir dir pattern
  ∈ NewGo.newTrace st
      (NewGo.processRepo githubToken azureToken azureOrg azureProject
         dontSave env repo st) ->
  dir = ""
  /\ Contains pattern "/" = false
  /\ String.length pattern = String.length repo.
Proof.
  assert (Hgoal : forall d p, EvTempDir d p = EvTempDir "" (ReplaceAll repo "/" "_") ->
                              d = "" /\ Contains p "/" = false
                              /\ String.length p = String.length repo).
  { intros d p [= -> ->]. split; [reflexivity | apply ReplaceAll_slash]. }
  unfold_pass. change (replace_scan "/" "_" 0 repo) with (ReplaceAll repo "/" "_").
  answers; erewrite newTrace_app by as_extension; intros H;
    repeat (apply elem_of_cons in H as [H|H]; [try discriminate H|]);
    try (now apply elem_of_nil in H);
    now apply Hgoal.
Qed.

Lemma workspace_pattern_has_no_separator_witness :
  "" = "" /\ Contains "org_a" "/" = false /\ String.length "org_a" = String.length "org/a".
Proof.
  apply (workspace_pattern_has_no_separator "ghp_SECRET" "az_SECRET"
           "https://dev.azure.com/org" "proj" false (Scenario.world [] [])
           "org/a" NewGo.start "" "org_a").
  vm_compute. repeat constructor.
Defined.

(** ** Keeping the clone in [new.go] *)

Ltac never_called H :=
  repeat (apply elem_of_cons in H as [H|H]; [discriminate H|]);
  now apply elem_of_nil in H.

(** When the box "Don't save local clone" is not checked, a migrated
    repository is never removed: the parent of [clones/<name>] is made and
    the temporary directory is renamed to [clones/<name>]. If the parent
    cannot be made, the rename is not tried; if either step fails, the
    error is logged after the success message and the temporary directory
    stays where it was. *)
Theorem kept_clone_is_moved (githubToken azureToken azureOrg azureProject : string)
  (env : Env) (repo : string) (st : NewGo.St) (d : string) :
  tempDir env "" (ReplaceAll repo "/" "_") = inl d ->
  let st' := NewGo.processRepo githubToken azureToken azureOrg azureProject
               false env repo st in
  let name := ReplaceAll repo "/" "_" in
  let dest := NewGo.joinClones name in
  NewGo.MSuccess repo ∈ NewGo.newLog st st' ->
  (forall path, EvRemoveAll path ∉ NewGo.newTrace st st')
  /\ match mkdirAll env (NewGo.dirOfClones name) with
     | Some err =>
         last (NewGo.log st') = Some (NewGo.MErrMove repo dest err)
         /\ (forall a b, EvRename a b ∉ NewGo.newTrace st st')
         /\ d ∈ NewGo.dirs st'
     | None =>
         match rename env d dest with
         | Some err =>
             last (NewGo.log st') = Some (NewGo.MErrMove repo dest err)
             /\ d ∈ NewGo.dirs st'
         | None =>
             last (NewGo.log st') = Some (NewGo.MSaved repo dest)
             /\ dest ∈ NewGo.dirs st'
             /\ (d <> dest -> d ∉ NewGo.dirs st')
         end
     end.
Proof.
  intros Htmp. unfold_pass.
  change (replace_scan "/" "_" 0 repo) with (ReplaceAll repo "/" "_").
  rewrite Htmp. simpl.
  answers;
    erewrite newLog_app by as_extension; erewrite newTrace_app by as_extension;
    intros H; try (not_logged H); clear H;
    (split; [intros path Hx; never_called Hx|]);
    rewrite ?last_snoc;
    repeat split;
    first [ intros a b Hx; never_called Hx | set_unfold; tauto ].
Qed.

Lemma kept_clone_is_moved_witness :
  last (NewGo.log
          (NewGo.processRepo "ghp_SECRET" "az_SECRET" "https://dev.azure.com/org" "proj"
             false (Scenario.world [] []) "org/a" NewGo.start))
  = Some (NewGo.MSaved "org/a" "clones/org_a")
  /\ "clones/org_a"
     ∈ NewGo.dirs
         (NewGo.processRepo "ghp_SECRET" "az_SECRET" "https://dev.azure.com/org" "proj"
            false (Scenario.world [] []) "org/a" NewGo.start).
Proof.
  destruct (kept_clone_is_moved "ghp_SECRET" "az_SECRET" "https://dev.azure.com/org"
              "proj" (Scenario.world [] []) "org/a" NewGo.start "/tmp/org_a042" eq_refl)
    as [_ H].
  - vm_compute. repeat constructor.
  - destruct H as (Hlast & Hdest & _). split; [exact Hlast | exact Hdest].
Defined.

(** ** After the push in [main.go] *)



Lemma processRepo_removes_workspace_witness :
  "/tmp/org_a042"
  ∉ NewGo.dirs
      (NewGo.processRepo "ghp_SECRET" "az_SECRET" "https://dev.azure.com/org" "proj"
         true (Scenario.failing "push" [] []) "org/a" NewGo.start).
Proof.
  apply (processRepo_removes_workspace "ghp_SECRET" "az_SECRET"
           "https://dev.azure.com/org" "proj" (Scenario.failing "push" [] []) "org/a"
           NewGo.start "/tmp/org_a042").
  - apply not_elem_of_empty.
  - reflexivity.
  - reflexivity.
Defined.

Lemma processRepo_failure_removes_workspace_witness :
  "/tmp/org_a042"
  ∉ NewGo.dirs
      (NewGo.processRepo "ghp_SECRET" "az_SECRET" "https://dev.azure.com/org" "proj"
         false (Scenario.failing "clone" [] []) "org/a" NewGo.start).
Proof.
  apply (processRepo_failure_removes_workspace "ghp_SECRET" "az_SECRET"
           "https://dev.azure.com/org" "proj" false (Scenario.failing "clone" [] [])
           "org/a" NewGo.start "/tmp/org_a042").
  - apply not_elem_of_empty.
  - reflexivity.
  - reflexivity.
  - vm_compute. intros H. never_called H.
Defined.

(** ** The whole batch of [new.go] *)




(** ** Goroutines that do not overlap *)

(** One goroutine running all its steps in a row. *)
Lemma run_turn (acts : list MainGo.Act) :
  forall i gs g text rest,
    gs !! i = Some g ->
    MainGo.todo g = concat (map MainGo.stepsOf acts) ->
    exists s,
      MainGo.runSchedule (replicate (length (MainGo.todo g)) i ++ rest) text gs
      = MainGo.runSchedule rest (text +:+ written (MainGo.todo g))
          (<[i := {| MainGo.todo := []; MainGo.seen := s |}]> gs).
Proof.
  induction acts as [|a acts IH]; intros i gs [steps s0] text rest Hi Hsteps;
    simpl in Hsteps; subst steps.
  - exists s0. simpl. rewrite append_empty_r. now rewrite list_insert_id.
  - pose proof (lookup_lt_Some _ _ _ Hi) as Hlt.
    destruct a as [m|e]; cbn [MainGo.stepsOf app] in Hi;
      cbn [MainGo.stepsOf app length replicate MainGo.todo written MainGo.runSchedule].
    + rewrite Hi. cbn [MainGo.stepG MainGo.todo MainGo.seen].
      cbn [MainGo.runSchedule]. rewrite list_lookup_insert_eq by exact Hlt.
      cbn [MainGo.stepG MainGo.todo MainGo.seen]. rewrite list_insert_insert_eq.
      destruct (IH i
                  (<[i := {| MainGo.todo := concat (map MainGo.stepsOf acts);
                             MainGo.seen := text |}]> gs)
                  {| MainGo.todo := concat (map MainGo.stepsOf acts);
                     MainGo.seen := text |}
                  (text +:+ MainGo.newline +:+ MainGo.render m) rest) as (s & E).
      * apply list_lookup_insert_eq. exact Hlt.
      * reflexivity.
      * exists s. cbn [MainGo.todo] in E. rewrite E, list_insert_insert_eq.
        now rewrite !append_assoc.
    + rewrite Hi. cbn [MainGo.stepG MainGo.todo MainGo.seen].
      destruct (IH i
                  (<[i := {| MainGo.todo := concat (map MainGo.stepsOf acts);
                             MainGo.seen := s0 |}]> gs)
                  {| MainGo.todo := concat (map MainGo.stepsOf acts);
                     MainGo.seen := s0 |}
                  text rest) as (s & E).
      * apply list_lookup_insert_eq. exact Hlt.
      * reflexivity.
      * exists s. cbn [MainGo.todo] in E. rewrite E, list_insert_insert_eq.
        reflexivity.
Qed.

Lemma run_serial (fresh : list MainGo.Goroutine) :
  forall finished text,
    Forall (fun g => exists acts, MainGo.todo g = concat (map MainGo.stepsOf acts)) fresh ->
    exists ended,
      MainGo.runSchedule (serialFrom (length finished) fresh) text (finished ++ fresh)
      = (text +:+ writtenAll fresh, finished ++ ended)
      /\ length ended = length fresh
      /\ MainGo.allDone ended = true.
Proof.
  induction fresh as [|g fresh IH]; intros finished text Hwf.
  - exists []. simpl. now rewrite append_empty_r.
  - apply Forall_cons in Hwf as [(acts & Hacts) Hwf].
    cbn [serialFrom writtenAll].
    destruct (run_turn acts (length finished) (finished ++ g :: fresh) g text
                (serialFrom (S (length finished)) fresh)) as (s & ->).
    + apply list_lookup_middle. reflexivity.
    + exact Hacts.
    + rewrite insert_app_r_alt, Nat.sub_diag by reflexivity. cbn [insert list_insert].
      rewrite (cons_middle _ finished fresh), app_assoc.
      destruct (IH (finished ++ [{| MainGo.todo := []; MainGo.seen := s |}])
                  (text +:+ written (MainGo.todo g)) Hwf) as (ended & E & Hlen & Hdone).
      rewrite length_app in E. simpl in E. rewrite Nat.add_1_r in E. rewrite E.
      exists ({| MainGo.todo := []; MainGo.seen := s |} :: ended).
      rewrite append_assoc, <- app_assoc. simpl. rewrite Hlen, Hdone. auto.
Qed.

Lemma spawn_steps form envs :
  Forall (fun g => exists acts, MainGo.todo g = concat (map MainGo.stepsOf acts))
    (MainGo.spawn form envs).
Proof.
  apply Forall_lookup. intros i g Hi. unfold MainGo.spawn in Hi.
  rewrite list_lookup_imap in Hi.
  destruct (MainGo.workList form !! i) as [repo|]; simpl in Hi; [|discriminate].
  injection Hi as <-. eexists. reflexivity.
Qed.

(** When the goroutines of [main.go] happen to run one after the other,
    nothing is lost: every goroutine ends, and the label holds its former
    text followed by every message of the first task, then every message of
    the second one, and so on, each on a line of its own. *)
Theorem serial_run_logs_everything (form : MainGo.Form) (envs : nat -> Env) (text : string) :
  let gs := MainGo.spawn form envs in
  let final := MainGo.runSchedule (serial gs) text gs in
  fst final = text +:+ writtenAll gs
  /\ length (snd final) = length gs
  /\ MainGo.allDone (snd final) = true.
Proof.
  intros gs final. subst final. unfold serial.
  destruct (run_serial gs [] text (spawn_steps form envs)) as (ended & E & Hlen & Hdone).
  simpl in E. rewrite E. simpl. auto.
Qed.

(** ** The entries of the work list of [main.go] *)

Lemma rev_app_append (s acc : string) :
  String.rev_app s acc = String.rev_app s "" +:+ acc.
Proof.
  revert acc. induction s as [|a s IH]; intros acc; simpl; [reflexivity|].
  rewrite (IH (String a acc)), (IH (String a "")), append_assoc. reflexivity.
Qed.

Lemma rev_cons (a : ascii) (s : string) :
  String.rev (String a s) = String.rev s +:+ String a "".
Proof. unfold String.rev. simpl. apply rev_app_append. Qed.

Lemma rev_append (a b : string) : String.rev (a +:+ b) = String.rev b +:+ String.rev a.
Proof.
  induction a as [|x a IH]; simpl.
  - now rewrite append_empty_r.
  - rewrite !rev_cons, IH, append_assoc. reflexivity.
Qed.

Lemma rev_involutive (s : string) : String.rev (String.rev s) = s.
Proof.
  induction s as [|x s IH]; [reflexivity|].
  rewrite rev_cons, rev_append, IH. reflexivity.
Qed.

Lemma length_rev (s : string) : String.length (String.rev s) = String.length s.
Proof.
  induction s as [|x s IH]; [reflexivity|].
  rewrite rev_cons, length_append, IH. simpl. lia.
Qed.

Lemma countByte_append (c : ascii) (a b : string) :
  countByte c (a +:+ b) = countByte c a + countByte c b.
Proof. induction a as [|x a IH]; simpl; [reflexivity | rewrite IH; lia]. Qed.

Lemma countByte_rev (c : ascii) (s : string) : countByte c (String.rev s) = countByte c s.
Proof.
  induction s as [|x s IH]; [reflexivity|].
  rewrite rev_cons, countByte_append, IH. simpl. lia.
Qed.

Lemma drop_bytes_suffix (n : nat) (s : string) : exists a, s = a +:+ drop_bytes n s.
Proof.
  revert s. induction n as [|n IH]; intros s.
  - now exists "".
  - destruct s as [|x s]; [now exists ""|].
    destruct (IH s) as (a & E). exists (String x a). simpl. now rewrite <- E.
Qed.

Lemma length_drop_bytes (n : nat) (s : string) :
  String.length (drop_bytes n s) = String.length s - n.
Proof.
  revert s. induction n as [|n IH]; intros s; [simpl; lia|].
  destruct s as [|x s]; simpl; [reflexivity | apply IH].
Qed.

Lemma trim_with_suffix (width : string -> nat) (fuel : nat) (s : string) :
  exists a, s = a +:+ trim_with width fuel s.
Proof.
  revert s. induction fuel as [|fuel IH]; intros s; cbn [trim_with]; [now exists ""|].
  destruct (width s) as [|n]; [now exists ""|].
  destruct (drop_bytes_suffix (S n) s) as (a & Ea).
  destruct (IH (drop_bytes (S n) s)) as (b & Eb).
  exists (a +:+ b). rewrite append_assoc, <- Eb. exact Ea.
Qed.

(** With enough fuel, trimming ends on a string that starts with no white
    space. *)
Lemma trim_with_done (width : string -> nat) (fuel : nat) (s : string) :
  width "" = 0 -> String.length s <= fuel -> width (trim_with width fuel s) = 0.
Proof.
  intros Hempty. revert s. induction fuel as [|fuel IH]; intros s Hlen; cbn [trim_with].
  - destruct s; [exact Hempty | simpl in Hlen; lia].
  - destruct (width s) as [|n] eqn:Hw; [exact Hw|].
    apply IH. rewrite length_drop_bytes. lia.
Qed.

Lemma leadingSpace_prefix (p q : string) :
  leadingSpace (p +:+ q) = 0 -> leadingSpace p = 0.
Proof.
  destruct p as [|a [|b [|c p]]]; simpl; try reflexivity.
  - destruct (asciiSpace a); [discriminate | reflexivity].
  - destruct (asciiSpace a); [discriminate|].
    destruct (space2 a b); [discriminate | reflexivity].
  - trivial.
Qed.

Lemma TrimSpace_within (s : string) : exists a b, s = a +:+ TrimSpace s +:+ b.
Proof.
  unfold TrimSpace.
  destruct (trim_with_suffix leadingSpace (String.length s) s) as (a & Ea).
  set (l := trim_with leadingSpace (String.length s) s) in *.
  destruct (trim_with_suffix trailingSpace (String.length l) (String.rev l)) as (b & Eb).
  exists a, (String.rev b).
  rewrite <- rev_append, <- Eb, rev_involutive. exact Ea.
Qed.

Lemma TrimSpace_trimmed (s : string) :
  leadingSpace (TrimSpace s) = 0 /\ trailingSpace (String.rev (TrimSpace s)) = 0.
Proof.
  unfold TrimSpace.
  set (l := trim_with leadingSpace (String.length s) s).
  assert (Hl : leadingSpace l = 0) by (apply trim_with_done; [reflexivity | lia]).
  destruct (trim_with_suffix trailingSpace (String.length l) (String.rev l)) as (b & Eb).
  split.
  - apply (leadingSpace_prefix _ (String.rev b)).
    rewrite <- rev_append, <- Eb, rev_involutive. exact Hl.
  - rewrite rev_involutive. apply trim_with_done; [reflexivity|].
    rewrite length_rev. lia.
Qed.

Lemma TrimSpace_countByte (c : ascii) (s : string) :
  countByte c (TrimSpace s) <= countByte c s.
Proof.
  destruct (TrimSpace_within s) as (a & b & E). rewrite E at 2.
  rewrite !countByte_append. lia.
Qed.

Lemma split_comma_spec (s : string) :
  forall cur,
    String.concat "," (split_scan "," 0 cur s) = String.rev cur +:+ s
    /\ (countByte "," cur = 0 ->
        Forall (fun field => countByte "," field = 0) (split_scan "," 0 cur s)).
Proof.
  induction s as [|c r IH]; intros cur.
  - simpl. rewrite append_empty_r. split; [reflexivity|].
    intros H. constructor; [now rewrite countByte_rev | constructor].
  - cbn [split_scan]. change (String.length "," - 1) with 0. rewrite HasPrefix_comma.
    destruct (Ascii.eqb c ",") eqn:Hc.
    + apply Ascii.eqb_eq in Hc. subst c.
      destruct (IH "") as [Hjoin Hfree].
      pose proof (length_split_comma r "") as Hlen.
      destruct (split_scan "," 0 "" r) as [|f fs] eqn:Hs; [discriminate|].
      split.
      * change (String.concat "," (String.rev cur :: f :: fs))
          with (String.rev cur +:+ "," +:+ String.concat "," (f :: fs)).
        rewrite Hjoin. reflexivity.
      * intros H. constructor; [now rewrite countByte_rev | now apply Hfree].
    + destruct (IH (String c cur)) as [Hjoin Hfree]. split.
      * rewrite Hjoin, rev_cons, append_assoc. reflexivity.
      * intros H. apply Hfree. simpl. rewrite Hc. exact H.
Qed.

(** The field of the form is cut at its commas and nowhere else: putting
    the fields together again with commas gives the text back. *)
Theorem split_loses_only_the_commas (text : string) :
  String.concat "," (Split text ",") = text
  /\ Forall (fun field => countByte "," field = 0) (Split text ",").
Proof.
  unfold Split. destruct (split_comma_spec text "") as [Hjoin Hfree].
  split; [exact Hjoin | now apply Hfree].
Qed.

(** No task of [main.go] gets a name with a comma in it, or with white
    space (ASCII or Unicode) in front or behind. *)
Theorem task_names_are_trimmed_fields (form : MainGo.Form) :
  Forall (fun repo =>
            countByte "," repo = 0
            /\ leadingSpace repo = 0
            /\ trailingSpace (String.rev repo) = 0)
    (MainGo.workList form).
Proof.
  unfold MainGo.workList, Split. apply Forall_fmap.
  eapply Forall_impl.
  - apply (proj2 (split_comma_spec (MainGo.repoList form) "")). reflexivity.
  - intros field Hfield. cbv beta in Hfield |- *. split.
    + pose proof (TrimSpace_countByte "," field) as Hle. rewrite Hfield in Hle. lia.
    + apply TrimSpace_trimmed.
Qed.

(** ** White space around the fields *)

Lemma trim_with_nothing (width : string -> nat) (fuel : nat) (s : string) :
  width s = 0 -> trim_with width fuel s = s.
Proof. intros H. destruct fuel; cbn [trim_with]; [reflexivity | now rewrite H]. Qed.

Lemma TrimSpace_idempotent (s : string) : TrimSpace (TrimSpace s) = TrimSpace s.
Proof.
  destruct (TrimSpace_trimmed s) as [Hl Hr].
  set (t := TrimSpace s) in *. unfold TrimSpace at 1.
  rewrite (trim_with_nothing leadingSpace _ t Hl).
  rewrite (trim_with_nothing trailingSpace _ (String.rev t) Hr).
  apply rev_involutive.
Qed.

(** White space around the fields of the forms counts for nothing: a run
    on a form is the run on the form whose fields are trimmed already (in
    [main.go], all fields but the list of repositories, whose entries are
    trimmed one by one). *)
Theorem surrounding_space_is_ignored :
  (forall form checked listing envs st,
      NewGo.onMigrate (trimNewForm form) checked listing envs st
      = NewGo.onMigrate form checked listing envs st)
  /\ (forall form envs,
         MainGo.spawn (trimMainForm form) envs = MainGo.spawn form envs).
Proof.
  split.
  - intros form checked listing envs st. unfold NewGo.onMigrate, trimNewForm.
    cbn [NewGo.githubTokenEntry NewGo.azureTokenEntry NewGo.azureOrgEntry
         NewGo.azureProjectEntry].
    now rewrite !TrimSpace_idempotent.
  - intros form envs. unfold MainGo.spawn, MainGo.workList, MainGo.task, trimMainForm.
    cbn [MainGo.gitHubOrg MainGo.adoOrg MainGo.adoProject MainGo.repoList MainGo.gitPat
         MainGo.adoPat MainGo.deleteAfter].
    now rewrite !TrimSpace_idempotent.
Qed.

(** ** Who is sent what *)

Lemma processRepo_requests githubToken azureToken azureOrg azureProject dontSave env repo st :
  exists evs,
    NewGo.trace (NewGo.processRepo githubToken azureToken azureOrg azureProject
                   dontSave env repo st)
    = NewGo.trace st ++ evs
    /\ forall req, req ∈ httpRequests evs ->
                   req = NewGo.createRequest repo azureOrg azureProject azureToken.
Proof.
  unfold_pass.
  answers; eexists; (split; [as_extension|]); simpl; intros req H;
    repeat (apply elem_of_cons in H as [->|H]; [reflexivity|]);
    now apply elem_of_nil in H.
Qed.

Lemma httpRequests_app (t1 t2 : list Event) :
  httpRequests (t1 ++ t2) = httpRequests t1 ++ httpRequests t2.
Proof. apply omap_app. Qed.

Lemma processAll_requests githubToken azureToken azureOrg azureProject checked envs repos :
  forall i st,
    exists evs,
      NewGo.trace (NewGo.processAll githubToken azureToken azureOrg azureProject
                     checked envs i repos st)
      = NewGo.trace st ++ evs
      /\ forall req, req ∈ httpRequests evs ->
           exists repo, repo ∈ repos
                        /\ req = NewGo.createRequest repo azureOrg azureProject azureToken.
Proof.
  induction repos as [|repo rest IH]; intros i st; simpl.
  - exists []. rewrite app_nil_r. split; [reflexivity|].
    intros req H. now apply elem_of_nil in H.
  - destruct (IH (S i)
                (NewGo.processRepo githubToken azureToken azureOrg azureProject
                   (checked i) (envs i) repo st)) as (evs2 & -> & H2).
    destruct (processRepo_requests githubToken azureToken azureOrg azureProject
                (checked i) (envs i) repo st) as (evs1 & -> & H1).
    exists (evs1 ++ evs2). rewrite <- app_assoc. split; [reflexivity|].
    intros req H. rewrite httpRequests_app in H. apply elem_of_app in H as [H|H].
    + exists repo. split; [left | now apply H1].
    + destruct (H2 req H) as (r & Hr & E). exists r. split; [now right | exact E].
Qed.

(** The handler of [new.go] sends two kinds of requests and no other: the
    GET of [https://api.github.com/user/repos], in which only the GitHub
    token varies, and, for listed repositories, the POST of the URL built
    from the fields "Azure Org URL" and "Azure Project", with the name of
    the repository as payload and the Azure token as password. The host
    that receives the Azure token is the one the field "Azure Org URL"
    names, whatever it is. *)
Theorem requests_are_the_listing_or_a_creation (form : NewGo.Form) (checked : nat -> bool)
  (listing : Env) (envs : nat -> Env) (st : NewGo.St) (req : Request) :
  req ∈ httpRequests
          (NewGo.newTrace st (NewGo.onMigrate form checked listing envs st)) ->
  req = listRequest (TrimSpace (NewGo.githubTokenEntry form))
  \/ exists repo,
       repo ∈ NewGo.fetched form listing
       /\ req = NewGo.createRequest repo (TrimSpace (NewGo.azureOrgEntry form))
                  (TrimSpace (NewGo.azureProjectEntry form))
                  (TrimSpace (NewGo.azureTokenEntry form)).
Proof.
  unfold NewGo.fetched, NewGo.onMigrate.
  destruct (_ || _) eqn:Hempty.
  { erewrite newTrace_app by as_extension. intros H. now apply elem_of_nil in H. }
  set (st1 := NewGo.appendLog NewGo.MFetching (NewGo.appendLog NewGo.MStarting st)).
  rewrite (getGitHubRepos_list listing "" _ NewGo.start st1).
  destruct (getGitHubRepos_needs_status_200 listing ""
              (TrimSpace (NewGo.githubTokenEntry form)) st1) as [Htrace _].
  destruct (NewGo.getGitHubRepos listing "" (TrimSpace (NewGo.githubTokenEntry form)) st1)
    as [repos st2].
  cbn [fst snd] in Htrace |- *.
  assert (Hlist : exists evs0, NewGo.trace st2 = NewGo.trace st ++ evs0
            /\ forall r, r ∈ httpRequests evs0 ->
                 r = listRequest (TrimSpace (NewGo.githubTokenEntry form))).
  { destruct Htrace as [->| ->]; subst st1; simpl.
    - exists []. rewrite app_nil_r. split; [reflexivity|].
      intros r H. now apply elem_of_nil in H.
    - eexists. split; [reflexivity|]. intros r H.
      apply list_elem_of_singleton in H. exact H. }
  destruct Hlist as (evs0 & E0 & H0).
  destruct repos as [|repo rest].
  - erewrite newTrace_app by (cbn [NewGo.trace NewGo.appendLog]; exact E0).
    intros H. left. now apply H0.
  - destruct (processAll_requests (TrimSpace (NewGo.githubTokenEntry form))
                (TrimSpace (NewGo.azureTokenEntry form))
                (TrimSpace (NewGo.azureOrgEntry form))
                (TrimSpace (NewGo.azureProjectEntry form)) checked envs (repo :: rest) 0
                (NewGo.appendLog (NewGo.MFound (length (repo :: rest))) st2))
      as (evs & E & Hevs).
    cbn [NewGo.trace NewGo.appendLog] in E. rewrite E0, <- app_assoc in E.
    erewrite newTrace_app by (cbn [NewGo.trace NewGo.appendLog]; exact E).
    rewrite httpRequests_app.
    intros H. apply elem_of_app in H as [H|H]; [left; now apply H0 | right; now apply Hevs].
Qed.

Lemma requests_are_the_listing_or_a_creation_witness :
  let req := NewGo.createRequest "org/a" "https://dev.azure.com/org" "proj" "az_SECRET" in
  req = listRequest "ghp_SECRET"
  \/ exists repo,
       repo ∈ ["org/a"]
       /\ req = NewGo.createRequest repo "https://dev.azure.com/org" "proj" "az_SECRET".
Proof.
  apply (requests_are_the_listing_or_a_creation Scenario.newForm (fun _ => true)
           (Scenario.world ["org/a"] []) (fun _ => Scenario.world [] []) NewGo.start).
  vm_compute. repeat constructor.
Defined.

(** ** Where the clone of [main.go] goes *)



















(** The entries [a] and [x/a] are distinct, and both clones go to [a.git]. *)
Lemma last_component_names_the_clone :
  Git.bareDirName (cloneURL (Scenario.mainForm "a,x/a" false) "a") = Some "a.git"
  /\ Git.bareDirName (cloneURL (Scenario.mainForm "a,x/a" false) "x/a") = Some "a.git"
  /\ MainGo.workList (Scenario.mainForm "a,x/a" false) = ["a"; "x/a"].
Proof. vm_compute. repeat split. Qed.

(** ** No step is tried again *)






(** The pass of the witness: the second command fails, the closing message
    names that step, and two commands were issued, each once. *)
Example failing_remote_is_given_up :
  let st' := NewGo.processRepo "ghp_SECRET" "az_SECRET" "https://dev.azure.com/org" "proj"
               true (Scenario.failing "remote" [] []) "org/a" NewGo.start in
  NewGo.report (NewGo.newLog NewGo.start st') = [("org/a", NewGo.Failed NewGo.RemoteAdd)]
  /\ gitCommands (NewGo.newTrace NewGo.start st')
     = [ ["git"; "clone"; "--bare"; "https://ghp_SECRET@github.com/org/a.git"; "/tmp/org_a042"];
         ["git"; "-C"; "/tmp/org_a042"; "remote"; "add"; "azure";
          "https://az_SECRET@dev.azure.com/org/proj/_git/org/a"] ].
Proof. vm_compute. split; reflexivity. Qed.
